(** * food_expense_tracker: the expense store and the balance rule

    A shallow embedding of [models.py], [db.py] and [compute.py].

    - Python [float] and SQLite [REAL] are IEEE 754 binary64: Rocq's primitive
      [float], with the operations of [PrimFloat].
    - Python [int] is [Z]; [str] and SQLite [TEXT] are [string].
    - A Python [dict] from spender name to total is a [gmap string float].
    - The [expenses] table is the list of its rows in rowid order, together
      with the [sqlite_sequence] counter that [AUTOINCREMENT] maintains.
    - A repository method is a function of the database file's state that
      yields either a returned value or a raised exception, and the state
      afterwards. *)

From Stdlib Require Import ZArith String Ascii List Floats Lia.
From Stdlib Require Import DecimalString DecimalZ DecimalPos.
From stdpp Require Import base decidable option list sorting strings gmap.

Set Warnings "-inexact-float".
Local Open Scope string_scope.
Local Open Scope Z_scope.

(* ===================================================================== *)
(** * Python built-ins used by the sources *)
(* ===================================================================== *)

Module Py.

(** [str(n)] for an [int]. *)
Definition str (n : Z) : string := NilZero.string_of_int (Z.to_int n).

Fixpoint zeros (k : nat) : string :=
  match k with
  | O => ""
  | S k' => String "0" (zeros k')
  end.

(** [f"{n:0wd}"]: decimal, zero-filled after the sign up to [w] characters. *)
Definition format_0wd (w : nat) (n : Z) : string :=
  if n <? 0
  then "-" ++ zeros (w - 1 - String.length (str (- n))) ++ str (- n)
  else zeros (w - String.length (str n)) ++ str n.

(** The nearest integer to [n * 2^e], ties to the even one. *)
Definition round_half_even (n e : Z) : Z :=
  if 0 <=? e then n * 2 ^ e
  else
    let d := 2 ^ (- e) in
    let q := n / d in
    match Z.compare (2 * (n mod d)) d with
    | Lt => q
    | Gt => q + 1
    | Eq => if Z.even q then q else q + 1
    end.

(** [f"{x:.2f}"]: the exact binary value of [x] rounded to two decimals
    (ties to even), with [inf] and [nan] spelled out. *)
Definition format_2f (x : float) : string :=
  match Prim2SF x with
  | S754_nan => "nan"
  | S754_infinity s => if s then "-inf" else "inf"
  | S754_zero s => if s then "-0.00" else "0.00"
  | S754_finite s m e =>
      let cents := round_half_even (100 * Z.pos m) e in
      (if s then "-" else "") ++
      str (cents / 100) ++ "." ++ format_0wd 2 (cents mod 100)
  end.

(** [x / y] on floats; [None] stands for [ZeroDivisionError]. *)
Definition truediv (x y : float) : option float :=
  if (y =? 0)%float then None else Some (x / y)%float.

(** [dict.get(key, default)]. *)
Definition dict_get {V} (d : gmap string V) (key : string) (dflt : V) : V :=
  default dflt (d !! key).

(** ** [datetime.date] *)

Record date := mkdate { year : Z; month : Z; day : Z }.

Definition is_leap (y : Z) : bool :=
  (y mod 4 =? 0) && (negb (y mod 100 =? 0) || (y mod 400 =? 0)).

Definition days_in_month (y m : Z) : Z :=
  if m =? 2 then (if is_leap y then 29 else 28)
  else if (m =? 4) || (m =? 6) || (m =? 9) || (m =? 11) then 30
  else 31.

(** The invariant of the [date] type: [MINYEAR <= year <= MAXYEAR] and a
    day that exists in the month. *)
Definition date_ok (d : date) : bool :=
  (1 <=? year d) && (year d <=? 9999) &&
  (1 <=? month d) && (month d <=? 12) &&
  (1 <=? day d) && (day d <=? days_in_month (year d) (month d)).

(** [date.isoformat()]: ["%04d-%02d-%02d" % (year, month, day)]. *)
Definition isoformat (d : date) : string :=
  format_0wd 4 (year d) ++ "-" ++ format_0wd 2 (month d) ++ "-" ++
  format_0wd 2 (day d).

Definition digit_of_ascii (c : ascii) : option Z :=
  let n := Z.of_N (N_of_ascii c) in
  if (48 <=? n) && (n <=? 57) then Some (n - 48) else None.

(** A non-empty run of ASCII digits read as a number. *)
Fixpoint digits_from (acc : Z) (s : string) : option Z :=
  match s with
  | EmptyString => Some acc
  | String c s' =>
      match digit_of_ascii c with
      | Some k => digits_from (10 * acc + k) s'
      | None => None
      end
  end.

Definition parse_digits (s : string) : option Z :=
  match s with
  | EmptyString => None
  | _ => digits_from 0 s
  end.

(** [date.fromisoformat(s)] on the [YYYY-MM-DD] shape, the only one
    [isoformat] writes; [None] stands for [ValueError]. *)
Definition fromisoformat (s : string) : option date :=
  if negb (Nat.eqb (String.length s) 10) then None
  else if negb (String.eqb (substring 4 1 s) "-") then None
  else if negb (String.eqb (substring 7 1 s) "-") then None
  else
    match parse_digits (substring 0 4 s),
          parse_digits (substring 5 2 s),
          parse_digits (substring 8 2 s) with
    | Some y, Some m, Some d =>
        let dt := mkdate y m d in
        if date_ok dt then Some dt else None
    | _, _, _ => None
    end.

(** Comparison of dates: the order of the [(year, month, day)] triples. *)
Definition date_lt (d1 d2 : date) : Prop :=
  year d1 < year d2 \/
  (year d1 = year d2 /\
   (month d1 < month d2 \/ (month d1 = month d2 /\ day d1 < day d2))).

End Py.

(* ===================================================================== *)
(** * compute.py *)
(* ===================================================================== *)

(** The two-party totals [{"Shakib": a, "Junit": b}]. *)
Definition two_party (a b : float) : gmap string float :=
  {[ "Shakib" := a; "Junit" := b ]}.

(** [shakib_total - equal_share], as the function computes it from the two
    totals. *)
Definition balance_diff (shakib_total junit_total : float) : float :=
  (shakib_total - (shakib_total + junit_total) / 2)%float.

(** [compute_balance_message(totals)]; [None] stands for an exception
    ([ZeroDivisionError] is the only one an operation here can raise). *)
Definition compute_balance_message (totals : gmap string float)
    : option string :=
  let shakib_total := Py.dict_get totals "Shakib" 0%float in
  let junit_total := Py.dict_get totals "Junit" 0%float in
  let total_spent := (shakib_total + junit_total)%float in
  if (total_spent =? 0)%float then
    Some "No expenses recorded for this period."
  else
    equal_share ← Py.truediv total_spent 2%float;
    let diff := (shakib_total - equal_share)%float in
    if (abs diff <? 1e-6)%float then
      Some "Both Shakib and Junit have spent equally. No one owes anything."
    else if (0 <? diff)%float then
      Some ("Junit owes Shakib " ++ Py.format_2f diff ++ "$.")
    else
      Some ("Shakib owes Junit " ++ Py.format_2f (- diff)%float ++ "$.").


(* ===================================================================== *)
(** * models.py *)
(* ===================================================================== *)

Module models.

(** The [Expense] dataclass; [id] is [None] before the store assigns one. *)
Record Expense := mkExpense {
  id : option Z;
  spender : string;
  date : Py.date;
  shop : string;
  amount : float
}.

End models.

(* ===================================================================== *)
(** * The part of SQLite that db.py relies on *)
(* ===================================================================== *)

Module SQLite.

(** Binding a Python [float] to a statement parameter: SQLite has no NaN,
    a NaN is bound (and a NaN result is returned) as [NULL]. *)
Definition real_or_null (x : float) : option float :=
  if is_nan x then None else Some x.

(** The date parser on the [YYYY-MM-DD] shape: four, two and two digits
    with the ranges [0..9999], [1..12] and [1..31]. For the texts that
    [INSERT] writes here, the [isoformat] of a calendar date, the
    Julian-day normalisation that follows is the identity. *)
Definition parse_date (text : string) : option (Z * Z * Z) :=
  if negb (Nat.eqb (String.length text) 10) then None
  else if negb (String.eqb (substring 4 1 text) "-") then None
  else if negb (String.eqb (substring 7 1 text) "-") then None
  else
    match Py.parse_digits (substring 0 4 text),
          Py.parse_digits (substring 5 2 text),
          Py.parse_digits (substring 8 2 text) with
    | Some y, Some m, Some d =>
        if (1 <=? m) && (m <=? 12) && (1 <=? d) && (d <=? 31)
        then Some (y, m, d) else None
    | _, _, _ => None
    end.

(** The three conversions of [strftime] that the queries use. *)
Inductive strftime_format := Fmt_Y | Fmt_m | Fmt_d.

(** [strftime(fmt, text)]: ["%04d"] of the year, ["%02d"] of the month or
    of the day; [NULL] when [text] is not a date. *)
Definition strftime (fmt : strftime_format) (text : string) : option string :=
  match parse_date text with
  | Some (y, m, d) =>
      Some match fmt with
           | Fmt_Y => Py.format_0wd 4 y
           | Fmt_m => Py.format_0wd 2 m
           | Fmt_d => Py.format_0wd 2 d
           end
  | None => None
  end.

(** What a column of [REAL] affinity hands back for a number written to
    it: the number itself, except that a zero is kept as the integer 0 and
    so comes back as [0.0] whatever its sign was. *)
Definition real_column (x : float) : float :=
  if (x =? 0)%float then 0%float else x.

(** [SUM(x)] over the [REAL] values of a group: a running double-precision
    sum from [0.0], one addition per row in the order in which the rows
    are scanned (the plain sum of SQLite before 3.43; later versions carry
    a compensation term along, which this model does not have); [NULL]
    for no row at all and for a NaN result. *)
Definition sum_double (xs : list float) : float :=
  fold_left PrimFloat.add xs 0%float.

Definition SUM (xs : list float) : option float :=
  match xs with
  | [] => None
  | _ => real_or_null (sum_double xs)
  end.

(** [TEXT] values compare as their byte strings. *)
Definition text_lt (s1 s2 : string) : bool :=
  match String.compare s1 s2 with Lt => true | _ => false end.

End SQLite.

(* ===================================================================== *)
(** * db.py *)
(* ===================================================================== *)

Inductive exn := ValueError | IntegrityError.

(** What a call does to the database: it returns a value or raises, and
    leaves a state behind. *)
Inductive outcome (A S : Type) :=
  | Return (v : A) (st : S)
  | Raise (e : exn) (st : S).
Arguments Return {A S} v st.
Arguments Raise {A S} e st.

Definition state_after {A S} (o : outcome A S) : S :=
  match o with Return _ st => st | Raise _ st => st end.

(** The value of a Python call that may be [None] or an [int]. *)
Inductive pyvalue := PyNone | PyInt (n : Z).

Module db.
Import models.

(** A row of the [expenses] table:
    [id INTEGER PRIMARY KEY AUTOINCREMENT], [spender TEXT NOT NULL],
    [date TEXT NOT NULL], [shop TEXT NOT NULL], [amount REAL NOT NULL]. *)
Record row := mkrow {
  row_id : Z;
  row_spender : string;
  row_date : string;
  row_shop : string;
  row_amount : float
}.

(** The database file: the table in rowid order and the largest rowid
    ever used, which [AUTOINCREMENT] keeps in [sqlite_sequence]. *)
Record database := mkdb {
  expenses : list row;
  sqlite_sequence : Z
}.

(** The state right after [_create_table] on a new file. *)
Definition empty_db : database := mkdb [] 0.

Definition max_rowid (rows : list row) : Z :=
  fold_right (fun r acc => Z.max (row_id r) acc) 0 rows.

(** [INSERT INTO expenses (spender, date, shop, amount) VALUES (?,?,?,?)]:
    the new rowid is one more than the largest ever used (rowids are taken
    as unbounded: the largest rowid of the file format, 2^63 - 1, at which
    [AUTOINCREMENT] refuses a further row, is out of reach of one row per
    call); [None] when the [NOT NULL] constraint on [amount] fails; the
    amount is kept as the [REAL] column keeps it. *)
Definition insert_expense (spender date shop : string) (amount : float)
    (st : database) : option database :=
  match SQLite.real_or_null amount with
  | None => None
  | Some a =>
      let rowid := Z.max (sqlite_sequence st) (max_rowid (expenses st)) + 1 in
      Some (mkdb (expenses st ++
                    [mkrow rowid spender date shop (SQLite.real_column a)])%list
                 rowid)
  end.

(** [SQLiteExpenseRepository.add]. *)
Definition add (expense : Expense) (st : database) : outcome pyvalue database :=
  match insert_expense (spender expense) (Py.isoformat (date expense))
          (shop expense) (amount expense) st with
  | Some st' => Return PyNone st'
  | None => Raise IntegrityError st
  end.

(** [SQLiteExpenseRepository._build_where_clause]: the conditions, joined
    by [AND], each [strftime(fmt, date) = ?], and their parameters. *)
Definition _build_where_clause (month year day : option Z)
    : list SQLite.strftime_format * list string :=
  let conditions : list SQLite.strftime_format := [] in
  let params : list string := [] in
  let '(conditions, params) :=
    match year with
    | Some year => ((conditions ++ [SQLite.Fmt_Y])%list, (params ++ [Py.str year])%list)
    | None => (conditions, params)
    end in
  let '(conditions, params) :=
    match month with
    | Some month =>
        ((conditions ++ [SQLite.Fmt_m])%list, (params ++ [Py.format_0wd 2 month])%list)
    | None => (conditions, params)
    end in
  let '(conditions, params) :=
    match day with
    | Some day =>
        ((conditions ++ [SQLite.Fmt_d])%list, (params ++ [Py.format_0wd 2 day])%list)
    | None => (conditions, params)
    end in
  (conditions, params).

(** One condition [strftime(fmt, date) = ?] on a row; a [NULL] on the left
    is not true. *)
Definition condition_holds (r : row)
    (c : SQLite.strftime_format * string) : bool :=
  match SQLite.strftime (fst c) (row_date r) with
  | Some s => String.eqb s (snd c)
  | None => false
  end.

(** The [WHERE] clause on a row; no condition, no clause. *)
Definition where_holds (where_clause : list SQLite.strftime_format)
    (params : list string) (r : row) : bool :=
  forallb (condition_holds r) (zip where_clause params).

(** [ORDER BY date ASC, id DESC]: [r1] comes no later than [r2]. *)
Definition order_by (r1 r2 : row) : bool :=
  match String.compare (row_date r1) (row_date r2) with
  | Lt => true
  | Gt => false
  | Eq => row_id r2 <=? row_id r1
  end.

Definition comes_first : relation row := fun r1 r2 => order_by r1 r2 = true.

#[export] Instance comes_first_dec : RelDecision comes_first :=
  fun r1 r2 => decide (order_by r1 r2 = true).

Definition sorted_rows (rows : list row) : list row :=
  merge_sort comes_first rows.

Definition expense_of_row (r : row) : option Expense :=
  d ← Py.fromisoformat (row_date r);
  Some (mkExpense (Some (row_id r)) (row_spender r) d (row_shop r)
          (row_amount r)).

(** [SQLiteExpenseRepository.list_all]. *)
Definition list_all (month year day : option Z) (st : database)
    : outcome (list Expense) database :=
  let '(where_clause, params) := _build_where_clause month year day in
  let rows :=
    sorted_rows (filter (fun r => where_holds where_clause params r = true)
                   (expenses st)) in
  match mapM expense_of_row rows with
  | Some expenses => Return expenses st
  | None => Raise ValueError st
  end.

(** [total or 0.0]. *)
Definition or_zero (total : option float) : float :=
  match total with
  | None => 0%float
  | Some t => if (t =? 0)%float then 0%float else t
  end.

(** [SELECT spender, SUM(amount) ... GROUP BY spender]: one result row
    for each spender that has a row. *)
Definition group_by_spender (rows : list row) : list (string * option float) :=
  map (fun s =>
         (s, SQLite.SUM (map row_amount
                           (filter (fun r => row_spender r = s) rows))))
      (remove_dups (map row_spender rows)).

(** [SQLiteExpenseRepository.get_totals]. *)
Definition get_totals (month year day : option Z) (st : database)
    : outcome (gmap string float) database :=
  let '(where_clause, params) := _build_where_clause month year day in
  let rows :=
    group_by_spender
      (filter (fun r => where_holds where_clause params r = true)
         (expenses st)) in
  Return (fold_left (fun d r => <[fst r := or_zero (snd r)]> d) rows ∅) st.

End db.

(* ===================================================================== *)
(** * Python built-ins used by app.py *)
(* ===================================================================== *)

(** A character is a code point below 256. *)
Module Builtins.

Definition code (c : ascii) : Z := Z.of_N (N_of_ascii c).

(** [c.isspace()]: the white space that [strip()] removes. *)
Definition isspace_char (c : ascii) : bool :=
  ((9 <=? code c) && (code c <=? 13)) || ((28 <=? code c) && (code c <=? 32)) ||
  (code c =? 133) || (code c =? 160).

(** [c.isdigit()]: the ten decimal digits and the superscripts 1, 2, 3. *)
Definition isdigit_char (c : ascii) : bool :=
  ((48 <=? code c) && (code c <=? 57)) ||
  (code c =? 178) || (code c =? 179) || (code c =? 185).

Definition isdecimal_char (c : ascii) : bool :=
  (48 <=? code c) && (code c <=? 57).

Fixpoint lstrip (s : string) : string :=
  match s with
  | EmptyString => EmptyString
  | String c s' => if isspace_char c then lstrip s' else s
  end.

Fixpoint rstrip (s : string) : string :=
  match s with
  | EmptyString => EmptyString
  | String c s' =>
      match rstrip s' with
      | EmptyString => if isspace_char c then EmptyString else String c EmptyString
      | t => String c t
      end
  end.

(** [s.strip()]. *)
Definition strip (s : string) : string := rstrip (lstrip s).

Fixpoint all_chars (p : ascii -> bool) (s : string) : bool :=
  match s with
  | EmptyString => true
  | String c s' => p c && all_chars p s'
  end.

(** [s.isdigit()]: at least one character, all of them digits. *)
Definition isdigit (s : string) : bool :=
  match s with
  | EmptyString => false
  | _ => all_chars isdigit_char s
  end.

(** [int(s)] for a text that passes [isdigit()]: its value when every
    character is a decimal digit and there are at most 4300 of them (the
    interpreter's limit); [None] stands for [ValueError]. *)
Definition int (s : string) : option Z :=
  if 4300 <? Z.of_nat (String.length s) then None else Py.parse_digits s.

(** [range(a, b)]. *)
Definition range (a b : Z) : list Z :=
  map (fun k => a + Z.of_nat k) (seq 0 (Z.to_nat (b - a))).

End Builtins.

(* ===================================================================== *)
(** * app.py *)
(* ===================================================================== *)

Module app.
Import models.

Definition SHOP_CHOICES : list string :=
  ["Mizan"; "Newon"; "Madina"; "Beau-Soir"; "Costco"; "Restaurents";
   "Walmart"; "Amazon"].

(** [calendar.month_name], in the C locale that the process starts in. *)
Definition month_name (i : Z) : string :=
  nth (Z.to_nat i)
    [""; "January"; "February"; "March"; "April"; "May"; "June"; "July";
     "August"; "September"; "October"; "November"; "December"] "".

Definition MONTH_CHOICES : list (Z * string) :=
  map (fun i => (i, month_name i)) (Builtins.range 1 13).

Inductive http_method := GET | POST.

(** The part of a request that the views read. *)
Record request := mkrequest {
  method : http_method;
  args : gmap string string;
  form : gmap string string
}.

(** What [render_template("home.html", ...)] receives from [index]. *)
Record home_context := mkhome {
  home_expenses : list Expense;
  home_totals : gmap string float;
  home_shops : list string;
  home_months : list (Z * string);
  home_years : list Z;
  home_selected_month : option Z;
  home_selected_year : option Z;
  home_balance_message : string
}.

(** What [render_template("view.html", ...)] receives. *)
Record view_context := mkview {
  view_expenses_shown : list Expense;
  view_totals : gmap string float;
  view_months : list (Z * string);
  view_years : list Z;
  view_selected_month : option Z;
  view_selected_year : option Z;
  view_selected_day : option Z;
  view_balance_message : string;
  view_show_results : bool
}.

(** An exception that leaves a view. *)
Inductive uncaught := Exn (e : exn) | ZeroDivisionError.

Inductive response :=
  | render_home (ctx : home_context)
  | render_view (ctx : view_context)
  | render_update (shops : list string)
  | redirect (location : string)
  | bad_request
  | server_error (cause : uncaught).

(** [int(s) if s.isdigit() else None] on [request.args.get(key, "").strip()];
    the outer [None] stands for the [ValueError] of [int]. *)
Definition query_int (args : gmap string string) (key : string)
    : option (option Z) :=
  let s := Builtins.strip (Py.dict_get args key "") in
  if Builtins.isdigit s then
    match Builtins.int s with
    | Some n => Some (Some n)
    | None => None
    end
  else Some None.

Section Views.

(** [datetime.now().year] when the module is loaded. *)
Variable CURRENT_YEAR : Z.

(** [float(s)] and [date.fromisoformat(s)] on the text of a form field;
    [None] stands for [ValueError]. *)
Variable py_float : string -> option float.
Variable date_fromisoformat : string -> option Py.date.

Definition YEAR_CHOICES : list Z :=
  Builtins.range (CURRENT_YEAR - 2) (CURRENT_YEAR + 3).

(** [index]: the view of the route ["/"]. *)
Definition index (req : request) (st : db.database)
    : response * db.database :=
  match query_int (args req) "month", query_int (args req) "year" with
  | Some month, Some year =>
      match db.list_all month year None st with
      | Raise e st1 => (server_error (Exn e), st1)
      | Return expenses st1 =>
          match db.get_totals month year None st1 with
          | Raise e st2 => (server_error (Exn e), st2)
          | Return totals st2 =>
              match compute_balance_message totals with
              | None => (server_error ZeroDivisionError, st2)
              | Some balance_message =>
                  (render_home
                     (mkhome expenses totals SHOP_CHOICES MONTH_CHOICES
                        YEAR_CHOICES month year balance_message), st2)
              end
          end
      end
  | _, _ => (server_error (Exn ValueError), st)
  end.

(** [view_expenses]: the view of the route ["/view"]. *)
Definition view_expenses (req : request) (st : db.database)
    : response * db.database :=
  match query_int (args req) "month", query_int (args req) "year",
        query_int (args req) "day" with
  | Some month, Some year, Some day =>
      let show_results := bool_decide (month <> None) in
      if show_results then
        match db.list_all month year day st with
        | Raise e st1 => (server_error (Exn e), st1)
        | Return expenses st1 =>
            match db.get_totals month year day st1 with
            | Raise e st2 => (server_error (Exn e), st2)
            | Return totals st2 =>
                match compute_balance_message totals with
                | None => (server_error ZeroDivisionError, st2)
                | Some balance_message =>
                    (render_view
                       (mkview expenses totals MONTH_CHOICES YEAR_CHOICES
                          month year day balance_message show_results), st2)
                end
            end
        end
      else
        (render_view
           (mkview [] ∅ MONTH_CHOICES YEAR_CHOICES month year day
              "Please select a month to see expenses." show_results), st)
  | _, _, _ => (server_error (Exn ValueError), st)
  end.

(** [update_expense]: the view of the route ["/update"]. A form field that
    is missing answers 400. *)
Definition update_expense (req : request) (st : db.database)
    : response * db.database :=
  match method req with
  | POST =>
      match form req !! "spender", form req !! "date", form req !! "shop",
            form req !! "amount" with
      | Some spender, Some date_str, Some shop, Some amount_str =>
          match (if String.eqb amount_str "" then Some 0%float
                 else py_float amount_str) with
          | None => (server_error (Exn ValueError), st)
          | Some amount =>
              match date_fromisoformat date_str with
              | None => (server_error (Exn ValueError), st)
              | Some expense_date =>
                  match db.add (mkExpense None spender expense_date shop amount)
                          st with
                  | Raise e st1 => (server_error (Exn e), st1)
                  | Return _ st1 => (redirect "/", st1)
                  end
              end
          end
      | _, _, _, _ => (bad_request, st)
      end
  | GET => (render_update SHOP_CHOICES, st)
  end.

End Views.
End app.

(* ===================================================================== *)
(** * Notions used to state the properties *)
(* ===================================================================== *)

(** A reading of decimal text that undoes [str] and [format_0wd]. *)
Definition read_int (s : string) : option Z :=
  option_map Z.of_int (NilZero.int_of_string s).

(** What evaluation checks of the text of one year, and of one two-digit
    field against every other. *)
Definition year_text_ok (y : Z) : bool :=
  Nat.eqb (String.length (Py.format_0wd 4 y)) 4 &&
  String.eqb (Py.format_0wd 4 y)
    (Py.format_0wd 2 (y / 100) ++ Py.format_0wd 2 (y mod 100)) &&
  bool_decide (Py.parse_digits (Py.format_0wd 4 y) = Some y) &&
  Bool.eqb (String.eqb (Py.str y) (Py.format_0wd 4 y)) (1000 <=? y).

Definition two_digit_text_ok (m : Z) : bool :=
  Nat.eqb (String.length (Py.format_0wd 2 m)) 2 &&
  bool_decide (Py.parse_digits (Py.format_0wd 2 m) = Some m) &&
  forallb (fun k =>
             bool_decide ((Py.format_0wd 2 m ?= Py.format_0wd 2 (Z.of_nat k))%string
                          = (m ?= Z.of_nat k)))
          (seq 0 100).

(** The order of dates as a three-way comparison. *)
Definition date_compare (d1 d2 : Py.date) : comparison :=
  match Py.year d1 ?= Py.year d2 with
  | Eq => match Py.month d1 ?= Py.month d2 with
          | Eq => Py.day d1 ?= Py.day d2
          | c => c
          end
  | c => c
  end.

Import models.

(** A row as [INSERT] writes it: its date is the ISO text of a calendar
    date and its amount is a number. *)
Definition row_ok (r : db.row) : bool :=
  match Py.fromisoformat (db.row_date r) with
  | Some d => String.eqb (Py.isoformat d) (db.row_date r)
  | None => false
  end && negb (is_nan (db.row_amount r)).

Fixpoint ids_increase (last : Z) (rows : list db.row) : bool :=
  match rows with
  | [] => true
  | r :: rows' => (last <? db.row_id r) && ids_increase (db.row_id r) rows'
  end.

(** The invariant of the database file: rows as [INSERT] writes them, in
    increasing rowid order, none above [sqlite_sequence]. *)
Definition db_ok (st : db.database) : bool :=
  forallb row_ok (db.expenses st) && ids_increase 0 (db.expenses st) &&
  (db.max_rowid (db.expenses st) <=? db.sqlite_sequence st).

(** The [Expense] that [list_all] builds from a row. *)
Definition the_expense (r : db.row) : Expense :=
  mkExpense (Some (db.row_id r)) (db.row_spender r)
    (default (Py.mkdate 1 1 1) (Py.fromisoformat (db.row_date r)))
    (db.row_shop r) (db.row_amount r).

(** The [WHERE] clause of a filter on a row. *)
Definition accepts (month year day : option Z) (r : db.row) : bool :=
  db.where_holds (fst (db._build_where_clause month year day))
    (snd (db._build_where_clause month year day)) r.

(** [e1] is listed before [e2]: an earlier date, or the same date and a
    larger id. *)
Definition listed_before (e1 e2 : Expense) : Prop :=
  Py.date_lt (date e1) (date e2) \/
  (date e1 = date e2 /\
   match id e1, id e2 with
   | Some i1, Some i2 => i2 < i1
   | _, _ => False
   end).

Definition id_key (e : Expense) : Z := default 0 (id e).

(** The records of a listing taken in ascending id order, the order in
    which the table is scanned. *)
Definition by_id : relation Expense := fun e1 e2 => id_key e1 <= id_key e2.

#[export] Instance by_id_dec : RelDecision by_id :=
  fun e1 e2 => decide (id_key e1 <= id_key e2).




(** The amount that the store gives back for an amount handed to [add]:
    the same number, a zero without its sign. *)
Definition stored_amount (x : float) : float :=
  if (x =? 0)%float then 0%float else x.

(** The calls a client makes on the repository, and the database they
    leave behind. *)
Inductive call :=
  | CallAdd (expense : Expense)
  | CallListAll (month year day : option Z)
  | CallGetTotals (month year day : option Z).

Definition call_state (c : call) (st : db.database) : db.database :=
  match c with
  | CallAdd expense => state_after (db.add expense st)
  | CallListAll month year day => state_after (db.list_all month year day st)
  | CallGetTotals month year day => state_after (db.get_totals month year day st)
  end.

Definition run (calls : list call) (st : db.database) : db.database :=
  fold_left (fun st c => call_state c st) calls st.

(** A call passes a real [date] object. *)
Definition call_ok (c : call) : bool :=
  match c with
  | CallAdd expense => Py.date_ok (date expense)
  | _ => true
  end.

(** The scenario of the two purchases of March 2024. *)
Definition costco : Expense :=
  mkExpense None "Shakib" (Py.mkdate 2024 3 5) "Costco" 100%float.
Definition walmart : Expense :=
  mkExpense None "Junit" (Py.mkdate 2024 3 10) "Walmart" 20%float.
Definition march_db : db.database :=
  state_after (db.add walmart (state_after (db.add costco db.empty_db))).

(** A purchase in the year 999. *)
Definition early_db : db.database :=
  state_after
    (db.add (mkExpense None "Shakib" (Py.mkdate 999 3 5) "Mizan" 12.5%float)
       db.empty_db).

(** What the claim asks of a filter component: absent, or equal to the
    date's component. *)
Definition component_matches (wanted : option Z) (have : Z) : Prop :=
  match wanted with
  | Some w => w = have
  | None => True
  end.

Definition filter_matches (month year day : option Z) (d : Py.date) : Prop :=
  component_matches year (Py.year d) /\
  component_matches month (Py.month d) /\
  component_matches day (Py.day d).


(** A text that does not begin with a minus sign. *)
Definition unsigned_text (s : string) : Prop :=
  match s with
  | String c _ => Ascii.eqb c "-" = false
  | EmptyString => True
  end.

(** What a message prints for an amount: a whole number of cents, or
    [inf], or [nan]. *)
Inductive printed := Cents (c : Z) | Infinite | NotANumber.

#[export] Instance printed_eq_dec : EqDecision printed.
Proof. solve_decision. Defined.

(** The integer nearest to [n * 2^e], the even one of two that are equally
    near: the quotient rounded half up, less one at a tie that came out
    odd. *)
Definition nearest_even (n e : Z) : Z :=
  if 0 <=? e then n * 2 ^ e
  else
    let d := 2 ^ (- e) in
    let up := (2 * n + d) / (2 * d) in
    if ((2 * n + d) mod (2 * d) =? 0) && Z.odd up then up - 1 else up.

(** The magnitude of a number in cents: the whole number of cents nearest
    to its exact binary value, whatever its sign. *)
Definition owed_cents (x : float) : printed :=
  match Prim2SF x with
  | S754_nan => NotANumber
  | S754_infinity _ => Infinite
  | S754_zero _ => Cents 0
  | S754_finite _ m e => Cents (nearest_even (100 * Z.pos m) e)
  end.


(** What each party paid above the equal share, [a - (a + b) / 2] and
    [b - (a + b) / 2] as binary64 computes them, lead to the same verdict
    with the parties exchanged: the sum is zero; or both are within the
    tolerance; or neither is, exactly one of them is positive, and both
    have the same magnitude in cents. *)
Definition rounding_agrees (a b : float) : bool :=
  let over_a := balance_diff a b in
  let over_b := balance_diff b a in
  (a + b =? 0)%float ||
  (if (abs over_a <? 1e-6)%float then (abs over_b <? 1e-6)%float
   else
     negb (abs over_b <? 1e-6)%float &&
     negb (Bool.eqb (0 <? over_a)%float (0 <? over_b)%float) &&
     bool_decide (owed_cents over_a = owed_cents over_b)).


(** A purchase entered with the amount [-0.0]. *)
Definition minus_zero_purchase : Expense :=
  mkExpense None "Shakib" (Py.mkdate 2024 3 5) "Costco" (-0)%float.

(* ===================================================================== *)
(** * Facts about binary64 arithmetic *)
(* ===================================================================== *)

Section FloatFacts.
Implicit Types x y d : float.

Lemma float_add_comm x y : (x + y = y + x)%float.
Proof.
  apply Prim2SF_inj. rewrite !add_spec. unfold SF64add, SFadd.
  destruct (Prim2SF x) as [[]|[]| |sx mx ex],
           (Prim2SF y) as [[]|[]| |sy my ey]; try reflexivity.
  rewrite (Z.min_comm ey ex), Z.add_comm. reflexivity.
Qed.
End FloatFacts.

(* ===================================================================== *)
(** * The balance rule *)
(* ===================================================================== *)

Section Balance.
Implicit Types (totals : gmap string float) (a b : float).

Lemma dict_get_two_party_shakib a b :
  Py.dict_get (two_party a b) "Shakib" 0%float = a.
Proof. unfold Py.dict_get, two_party. by simplify_map_eq. Qed.

Lemma dict_get_two_party_junit a b :
  Py.dict_get (two_party a b) "Junit" 0%float = b.
Proof. unfold Py.dict_get, two_party. by simplify_map_eq. Qed.

(** The function as a function of the two totals it reads. *)
Lemma compute_balance_message_two_party a b :
  compute_balance_message (two_party a b) =
  if (a + b =? 0)%float then Some "No expenses recorded for this period."
  else if (abs (balance_diff a b) <? 1e-6)%float then
    Some "Both Shakib and Junit have spent equally. No one owes anything."
  else if (0 <? balance_diff a b)%float then
    Some ("Junit owes Shakib " ++ Py.format_2f (balance_diff a b) ++ "$.")
  else
    Some ("Shakib owes Junit " ++ Py.format_2f (- balance_diff a b)%float
            ++ "$.").
Proof.
  unfold compute_balance_message.
  rewrite dict_get_two_party_shakib, dict_get_two_party_junit.
  reflexivity.
Qed.

(** No exception leaves the function: the only division is by [2.0]. *)
Lemma compute_balance_message_returns totals :
  is_Some (compute_balance_message totals).
Proof.
  unfold compute_balance_message, Py.truediv.
  change (2 =? 0)%float with false. cbn.
  repeat case_match; eauto.
Qed.

(** C4. The four literal edge cases: the empty mapping, equal totals, and
    each party having paid everything. *)
Theorem balance_edge_cases :
  compute_balance_message ∅ = Some "No expenses recorded for this period." /\
  compute_balance_message {[ "Shakib" := 50%float; "Junit" := 50%float ]} =
    Some "Both Shakib and Junit have spent equally. No one owes anything." /\
  compute_balance_message {[ "Shakib" := 100%float; "Junit" := 0%float ]} =
    Some "Junit owes Shakib 50.00$." /\
  compute_balance_message {[ "Shakib" := 0%float; "Junit" := 30%float ]} =
    Some "Shakib owes Junit 15.00$.".
Proof. repeat split; vm_compute; reflexivity. Qed.

(** C5. When the two totals (a missing key read as 0.0) add up to exactly
    zero, the function returns the "no expenses recorded" message: it
    returns normally, and it does so before the division by two. *)
Theorem zero_total_reports_no_expenses totals :
  (Py.dict_get totals "Shakib" 0 + Py.dict_get totals "Junit" 0 =? 0)%float
    = true ->
  compute_balance_message totals =
    Some "No expenses recorded for this period.".
Proof.
  intros Hzero. unfold compute_balance_message. rewrite Hzero. reflexivity.
Qed.

Lemma zero_total_reports_no_expenses_witness :
  compute_balance_message {[ "Shakib" := 0%float; "Junit" := (-0)%float ]} =
    Some "No expenses recorded for this period.".
Proof.
  apply (zero_total_reports_no_expenses
           {[ "Shakib" := 0%float; "Junit" := (-0)%float ]}).
  vm_compute. reflexivity.
Defined.

(** C10. The message depends on the mapping only through the values read
    at "Shakib" and "Junit" (0.0 for a missing key): two mappings that
    agree there give the same message, whatever else they hold. *)
Theorem balance_reads_two_keys_only (totals1 totals2 : gmap string float) :
  Py.dict_get totals1 "Shakib" 0%float = Py.dict_get totals2 "Shakib" 0%float ->
  Py.dict_get totals1 "Junit" 0%float = Py.dict_get totals2 "Junit" 0%float ->
  compute_balance_message totals1 = compute_balance_message totals2.
Proof.
  intros Hs Hj. unfold compute_balance_message. rewrite Hs, Hj. reflexivity.
Qed.

Lemma balance_reads_two_keys_only_witness :
  compute_balance_message
    {[ "Shakib" := 100%float; "Ghost" := 7%float; "Rent" := 900%float ]} =
  compute_balance_message {[ "Junit" := 0%float; "Shakib" := 100%float ]}.
Proof.
  apply (balance_reads_two_keys_only
           {[ "Shakib" := 100%float; "Ghost" := 7%float; "Rent" := 900%float ]}
           {[ "Junit" := 0%float; "Shakib" := 100%float ]});
    vm_compute; reflexivity.
Defined.








End Balance.

(* ===================================================================== *)
(** * Decimal text, dates and their ISO form *)
(* ===================================================================== *)

Lemma append_String c (s1 s2 : string) : String c s1 ++ s2 = String c (s1 ++ s2).
Proof. reflexivity. Qed.
Lemma append_empty (s : string) : "" ++ s = s.
Proof. reflexivity. Qed.

Lemma uint_of_string_zeros k u :
  exists u', NilEmpty.uint_of_string (Py.zeros k ++ NilZero.string_of_uint u) = Some u'
          /\ Z.of_uint u' = Z.of_uint u.
Proof.
  induction k as [|k [u' [Hu' Hz]]]; cbn [Py.zeros]; rewrite ?append_empty.
  - destruct (NilZero.usu_gen u) as [H|H].
    + exists u. split; [|done].
      destruct u; try done; cbn in *; done.
    + destruct u; try (exists (Decimal.D0 Decimal.Nil); done).
      all: eexists; split; [apply NilEmpty.usu|done].
  - rewrite append_String. cbn [NilEmpty.uint_of_string]. rewrite Hu'. cbn. exists (Decimal.D0 u'). done.
Qed.

Lemma padded_head k u :
  exists c s, Py.zeros k ++ NilZero.string_of_uint u = String c s /\ Ascii.eqb c "-" = false.
Proof.
  destruct k; cbn [Py.zeros]; rewrite ?append_empty, ?append_String; [|eauto].
  destruct u; cbn; eauto.
Qed.

Lemma read_int_padded k u :
  read_int (Py.zeros k ++ NilZero.string_of_uint u) = Some (Z.of_uint u).
Proof.
  destruct (uint_of_string_zeros k u) as (u' & Hu' & Hz).
  destruct (padded_head k u) as (c & s & Hs & Hc).
  unfold read_int. rewrite Hs in *. cbn [NilZero.int_of_string]. rewrite Hc.
  cbn [NilZero.uint_of_string]. rewrite Hu'. cbn. congruence.
Qed.

Lemma read_int_minus_padded k u :
  read_int ("-" ++ Py.zeros k ++ NilZero.string_of_uint u) = Some (- Z.of_uint u).
Proof.
  destruct (uint_of_string_zeros k u) as (u' & Hu' & Hz).
  destruct (padded_head k u) as (c & s & Hs & Hc).
  unfold read_int. rewrite Hs in *. rewrite append_String, append_empty.
  cbn [NilZero.int_of_string]. change (Ascii.eqb "-" "-") with true. cbn iota.
  cbn [NilZero.uint_of_string]. rewrite Hu'. cbn. congruence.
Qed.

Lemma read_int_format_0wd w n : read_int (Py.format_0wd w n) = Some n.
Proof.
  unfold Py.format_0wd, Py.str.
  destruct n as [|p|p]; cbn [Z.ltb Z.compare Z.opp Z.to_int NilZero.string_of_int].
  - rewrite read_int_padded. reflexivity.
  - rewrite read_int_padded. f_equal. apply (DecimalZ.of_to (Z.pos p)).
  - change (- Z.neg p) with (Z.pos p). cbn [Z.to_int NilZero.string_of_int].
    rewrite read_int_minus_padded. f_equal.
    change (- Z.of_uint (Pos.to_uint p)) with (- Z.of_int (Z.to_int (Z.pos p))).
    rewrite DecimalZ.of_to. reflexivity.
Qed.

Lemma read_int_str n : read_int (Py.str n) = Some n.
Proof.
  unfold Py.str. destruct n as [|p|p]; cbn [Z.to_int NilZero.string_of_int].
  - reflexivity.
  - rewrite <- (append_empty (NilZero.string_of_uint _)).
    change "" with (Py.zeros 0). rewrite read_int_padded.
    f_equal. apply (DecimalZ.of_to (Z.pos p)).
  - change (String "-" ?s) with ("-" ++ Py.zeros 0 ++ s).
    rewrite read_int_minus_padded. f_equal.
    change (- Z.of_uint (Pos.to_uint p)) with (- Z.of_int (Z.to_int (Z.pos p))).
    rewrite DecimalZ.of_to. reflexivity.
Qed.

(** ** Checking a property of all numbers below a bound by evaluation *)

Lemma forall_below (P : Z -> bool) (n : Z) :
  forallb (fun k => P (Z.of_nat k)) (seq 0 (Z.to_nat n)) = true ->
  forall z, 0 <= z < n -> P z = true.
Proof.
  intros H z Hz. rewrite forallb_forall in H.
  specialize (H (Z.to_nat z)). rewrite Z2Nat.id in H by lia.
  apply H, in_seq. lia.
Qed.

Lemma year_text_facts y :
  0 <= y < 10000 -> year_text_ok y = true.
Proof. apply (forall_below year_text_ok 10000). vm_compute. reflexivity. Qed.

Lemma two_digit_text_facts m :
  0 <= m < 100 -> two_digit_text_ok m = true.
Proof. apply (forall_below two_digit_text_ok 100). vm_compute. reflexivity. Qed.

(** ** Strings *)

Lemma string_compare_refl (s : string) : (s ?= s)%string = Eq.
Proof.
  induction s as [|c s IH]; cbn; [done|].
  unfold Ascii.compare. rewrite N.compare_refl. done.
Qed.

Lemma string_compare_app (a1 a2 b1 b2 : string) :
  String.length a1 = String.length a2 ->
  (a1 ++ b1 ?= a2 ++ b2)%string =
  match (a1 ?= a2)%string with Eq => (b1 ?= b2)%string | c => c end.
Proof.
  revert a2. induction a1 as [|c a1 IH]; intros [|c' a2] Hlen; try done.
  rewrite !append_String. cbn in *.
  destruct (Ascii.compare c c'); try done. apply IH. lia.
Qed.

Lemma string_compare_lt_trans (s1 s2 s3 : string) :
  (s1 ?= s2)%string = Lt -> (s2 ?= s3)%string = Lt -> (s1 ?= s3)%string = Lt.
Proof.
  revert s2 s3. induction s1 as [|c1 s1 IH]; intros [|c2 s2] [|c3 s3]; cbn; try done.
  unfold Ascii.compare.
  destruct (N.compare_spec (N_of_ascii c1) (N_of_ascii c2)) as [E12|L12|G12]; try done;
  destruct (N.compare_spec (N_of_ascii c2) (N_of_ascii c3)) as [E23|L23|G23]; try done;
  intros H12 H23.
  - rewrite E12, E23, N.compare_refl. eauto.
  - rewrite E12. by apply N.compare_lt_iff in L23 as ->.
  - rewrite <- E23. by apply N.compare_lt_iff in L12 as ->.
  - assert (L : (N_of_ascii c1 < N_of_ascii c3)%N) by lia.
    by apply N.compare_lt_iff in L as ->.
Qed.

(** The shape that [isoformat] writes, taken apart by [substring]. *)
Lemma iso_shape (Y M D : string) :
  String.length Y = 4%nat -> String.length M = 2%nat -> String.length D = 2%nat ->
  let s := Y ++ "-" ++ M ++ "-" ++ D in
  String.length s = 10%nat /\
  substring 0 4 s = Y /\ substring 4 1 s = "-" /\
  substring 5 2 s = M /\ substring 7 1 s = "-" /\ substring 8 2 s = D.
Proof.
  destruct Y as [|y1 [|y2 [|y3 [|y4 [|]]]]]; try done.
  destruct M as [|m1 [|m2 [|]]]; try done.
  destruct D as [|d1 [|d2 [|]]]; try done.
Qed.

(** ** Dates and their ISO text *)

Lemma date_ok_bounds d :
  Py.date_ok d = true ->
  1 <= Py.year d <= 9999 /\ 1 <= Py.month d <= 12 /\ 1 <= Py.day d <= 31.
Proof.
  unfold Py.date_ok, Py.days_in_month. intros H.
  repeat (apply andb_true_iff in H as [H ?]).
  repeat case_match; lia.
Qed.

Lemma year_text y :
  0 <= y < 10000 ->
  String.length (Py.format_0wd 4 y) = 4%nat /\
  Py.format_0wd 4 y = Py.format_0wd 2 (y / 100) ++ Py.format_0wd 2 (y mod 100) /\
  Py.parse_digits (Py.format_0wd 4 y) = Some y /\
  (Py.str y = Py.format_0wd 4 y <-> 1000 <= y).
Proof.
  intros Hy. pose proof (year_text_facts y Hy) as H. unfold year_text_ok in H.
  repeat (apply andb_true_iff in H as [H ?]).
  apply Nat.eqb_eq in H. apply String.eqb_eq in H2. apply bool_decide_eq_true_1 in H1.
  apply Bool.eqb_prop in H0.
  repeat split; try done.
  - intros E. apply String.eqb_eq in E. rewrite E in H0. symmetry in H0. lia.
  - intros E. apply String.eqb_eq. rewrite H0. lia.
Qed.

Lemma two_digit_text m :
  0 <= m < 100 ->
  String.length (Py.format_0wd 2 m) = 2%nat /\
  Py.parse_digits (Py.format_0wd 2 m) = Some m /\
  forall k, 0 <= k < 100 ->
    (Py.format_0wd 2 m ?= Py.format_0wd 2 k)%string = (m ?= k).
Proof.
  intros Hm. pose proof (two_digit_text_facts m Hm) as H.
  unfold two_digit_text_ok in H.
  repeat (apply andb_true_iff in H as [H ?]).
  apply Nat.eqb_eq in H. apply bool_decide_eq_true_1 in H1.
  repeat split; try done.
  intros k Hk. rewrite forallb_forall in H0.
  specialize (H0 (Z.to_nat k)). rewrite Z2Nat.id in H0 by lia.
  eapply bool_decide_eq_true_1, H0, in_seq. lia.
Qed.

Lemma isoformat_parts d :
  Py.date_ok d = true ->
  let s := Py.isoformat d in
  String.length s = 10%nat /\
  substring 0 4 s = Py.format_0wd 4 (Py.year d) /\ substring 4 1 s = "-" /\
  substring 5 2 s = Py.format_0wd 2 (Py.month d) /\ substring 7 1 s = "-" /\
  substring 8 2 s = Py.format_0wd 2 (Py.day d).
Proof.
  intros Hok. apply date_ok_bounds in Hok as (Hy & Hm & Hd).
  apply iso_shape.
  - apply year_text. lia.
  - apply two_digit_text. lia.
  - apply two_digit_text. lia.
Qed.

Lemma fromisoformat_isoformat d :
  Py.date_ok d = true -> Py.fromisoformat (Py.isoformat d) = Some d.
Proof.
  intros Hok. pose proof (isoformat_parts d Hok) as (Hl & HY & H4 & HM & H7 & HD).
  pose proof (date_ok_bounds d Hok) as (Hy & Hm & Hd).
  unfold Py.fromisoformat. rewrite Hl, HY, H4, HM, H7, HD. cbn.
  destruct (year_text (Py.year d)) as (_ & _ & -> & _); [lia|].
  destruct (two_digit_text (Py.month d)) as (_ & -> & _); [lia|].
  destruct (two_digit_text (Py.day d)) as (_ & -> & _); [lia|].
  destruct d as [y m dd]. cbn in *. rewrite Hok. done.
Qed.

Lemma parse_date_isoformat d :
  Py.date_ok d = true ->
  SQLite.parse_date (Py.isoformat d) = Some (Py.year d, Py.month d, Py.day d).
Proof.
  intros Hok. pose proof (isoformat_parts d Hok) as (Hl & HY & H4 & HM & H7 & HD).
  pose proof (date_ok_bounds d Hok) as (Hy & Hm & Hd).
  unfold SQLite.parse_date. rewrite Hl, HY, H4, HM, H7, HD. cbn.
  destruct (year_text (Py.year d)) as (_ & _ & -> & _); [lia|].
  destruct (two_digit_text (Py.month d)) as (_ & -> & _); [lia|].
  destruct (two_digit_text (Py.day d)) as (_ & -> & _); [lia|].
  case_match eqn:E; [done|].
  repeat (apply andb_false_iff in E as [E|E]); lia.
Qed.

Lemma strftime_isoformat fmt d :
  Py.date_ok d = true ->
  SQLite.strftime fmt (Py.isoformat d) =
  Some match fmt with
       | SQLite.Fmt_Y => Py.format_0wd 4 (Py.year d)
       | SQLite.Fmt_m => Py.format_0wd 2 (Py.month d)
       | SQLite.Fmt_d => Py.format_0wd 2 (Py.day d)
       end.
Proof.
  intros Hok. unfold SQLite.strftime. by rewrite parse_date_isoformat.
Qed.

Lemma year_text_compare y1 y2 :
  0 <= y1 < 10000 -> 0 <= y2 < 10000 ->
  (Py.format_0wd 4 y1 ?= Py.format_0wd 4 y2)%string = (y1 ?= y2).
Proof.
  intros H1 H2.
  destruct (year_text y1 H1) as (_ & -> & _), (year_text y2 H2) as (_ & -> & _).
  assert (Hq1 : 0 <= y1 / 100 < 100) by (split; [apply Z.div_pos|apply Z.div_lt_upper_bound]; lia).
  assert (Hq2 : 0 <= y2 / 100 < 100) by (split; [apply Z.div_pos|apply Z.div_lt_upper_bound]; lia).
  assert (Hr1 : 0 <= y1 mod 100 < 100) by (apply Z.mod_pos_bound; lia).
  assert (Hr2 : 0 <= y2 mod 100 < 100) by (apply Z.mod_pos_bound; lia).
  rewrite string_compare_app.
  2:{ destruct (two_digit_text _ Hq1) as (-> & _), (two_digit_text _ Hq2) as (-> & _). done. }
  rewrite (proj2 (proj2 (two_digit_text _ Hq1))) by done.
  rewrite (proj2 (proj2 (two_digit_text _ Hr1))) by done.
  pose proof (Z.div_mod y1 100). pose proof (Z.div_mod y2 100).
  destruct (Z.compare_spec (y1 / 100) (y2 / 100));
    destruct (Z.compare_spec (y1 mod 100) (y2 mod 100));
    symmetry; first [apply Z.compare_eq_iff|apply Z.compare_lt_iff|apply Z.compare_gt_iff]; lia.
Qed.

Lemma isoformat_compare d1 d2 :
  Py.date_ok d1 = true -> Py.date_ok d2 = true ->
  (Py.isoformat d1 ?= Py.isoformat d2)%string = date_compare d1 d2.
Proof.
  intros Hok1 Hok2.
  pose proof (date_ok_bounds d1 Hok1) as (Hy1 & Hm1 & Hd1).
  pose proof (date_ok_bounds d2 Hok2) as (Hy2 & Hm2 & Hd2).
  unfold Py.isoformat, date_compare.
  rewrite string_compare_app.
  2:{ destruct (year_text (Py.year d1)) as (-> & _); [lia|].
      destruct (year_text (Py.year d2)) as (-> & _); [lia|]. done. }
  rewrite year_text_compare by lia.
  destruct (Py.year d1 ?= Py.year d2); try done.
  rewrite (string_compare_app "-" "-") by done. cbn [String.compare].
  change (Ascii.compare "-" "-") with Eq. cbn iota.
  rewrite string_compare_app.
  2:{ destruct (two_digit_text (Py.month d1)) as (-> & _); [lia|].
      destruct (two_digit_text (Py.month d2)) as (-> & _); [lia|]. done. }
  rewrite (proj2 (proj2 (two_digit_text (Py.month d1) ltac:(lia)))) by lia.
  destruct (Py.month d1 ?= Py.month d2); try done.
  rewrite (string_compare_app "-" "-") by done. cbn [String.compare].
  change (Ascii.compare "-" "-") with Eq. cbn iota.
  rewrite (proj2 (proj2 (two_digit_text (Py.day d1) ltac:(lia)))) by lia. done.
Qed.

Lemma date_compare_eq d1 d2 : date_compare d1 d2 = Eq -> d1 = d2.
Proof.
  unfold date_compare. destruct d1 as [y1 m1 a1], d2 as [y2 m2 a2]; cbn.
  destruct (Z.compare_spec y1 y2); try done.
  destruct (Z.compare_spec m1 m2); try done.
  destruct (Z.compare_spec a1 a2); try done. congruence.
Qed.

Lemma date_compare_lt d1 d2 : date_compare d1 d2 = Lt <-> Py.date_lt d1 d2.
Proof.
  unfold date_compare, Py.date_lt.
  destruct (Z.compare_spec (Py.year d1) (Py.year d2));
    destruct (Z.compare_spec (Py.month d1) (Py.month d2));
    destruct (Z.compare_spec (Py.day d1) (Py.day d2)); split; try done; try lia;
    intros _; lia.
Qed.

Lemma isoformat_inj d1 d2 :
  Py.date_ok d1 = true -> Py.date_ok d2 = true ->
  Py.isoformat d1 = Py.isoformat d2 -> d1 = d2.
Proof.
  intros H1 H2 E. apply date_compare_eq.
  rewrite <- isoformat_compare, E by done. apply string_compare_refl.
Qed.

(* ===================================================================== *)
(** * The expense store *)
(* ===================================================================== *)

Section Store.
Implicit Types (r : db.row) (st : db.database) (e : Expense).

Lemma fromisoformat_ok s d : Py.fromisoformat s = Some d -> Py.date_ok d = true.
Proof.
  unfold Py.fromisoformat. intros H.
  repeat case_match; simplify_eq; done.
Qed.

Lemma row_ok_date r :
  row_ok r = true ->
  exists d, Py.date_ok d = true /\ db.row_date r = Py.isoformat d /\
            Py.fromisoformat (db.row_date r) = Some d.
Proof.
  unfold row_ok. intros [H _]%andb_true_iff.
  destruct (Py.fromisoformat (db.row_date r)) as [d|] eqn:E; [|done].
  apply String.eqb_eq in H. eauto using fromisoformat_ok.
Qed.

Lemma row_ok_amount r : row_ok r = true -> is_nan (db.row_amount r) = false.
Proof. unfold row_ok. intros [_ H]%andb_true_iff. by apply negb_true_iff. Qed.

Lemma expense_of_row_ok r :
  row_ok r = true -> db.expense_of_row r = Some (the_expense r).
Proof.
  intros (d & _ & _ & Hd)%row_ok_date.
  unfold db.expense_of_row, the_expense. rewrite Hd. done.
Qed.

Lemma the_expense_inj r1 r2 :
  row_ok r1 = true -> row_ok r2 = true ->
  the_expense r1 = the_expense r2 -> r1 = r2.
Proof.
  intros (d1 & _ & Ht1 & Hd1)%row_ok_date (d2 & _ & Ht2 & Hd2)%row_ok_date.
  unfold the_expense. rewrite Hd1, Hd2. cbn. intros [=].
  destruct r1, r2; cbn in *. congruence.
Qed.

Lemma mapM_expense_of_row (rows : list db.row) :
  Forall (fun r => row_ok r = true) rows ->
  mapM db.expense_of_row rows = Some (the_expense <$> rows).
Proof.
  intros H. apply mapM_Some_2. induction H; constructor; auto using expense_of_row_ok.
Qed.

Lemma db_ok_rows st :
  db_ok st = true -> Forall (fun r => row_ok r = true) (db.expenses st).
Proof.
  unfold db_ok. intros [[H _]%andb_true_iff _]%andb_true_iff.
  apply Forall_forall. intros r Hr%list_elem_of_In.
  by eapply forallb_forall in H.
Qed.

Lemma ids_increase_sorted last (rows : list db.row) :
  ids_increase last rows = true ->
  Forall (fun r => last < db.row_id r) rows /\
  StronglySorted (fun r1 r2 => db.row_id r1 < db.row_id r2) rows.
Proof.
  revert last. induction rows as [|r rows IH]; intros last; cbn.
  - intros _. split; constructor.
  - intros [Hl (Hall & Hs)%IH]%andb_true_iff. apply Z.ltb_lt in Hl.
    split; constructor; try done.
    all: eapply Forall_impl; [exact Hall|]; cbn; intros; lia.
Qed.

Lemma db_ok_ids st :
  db_ok st = true ->
  StronglySorted (fun r1 r2 => db.row_id r1 < db.row_id r2) (db.expenses st).
Proof.
  unfold db_ok. intros [[_ H]%andb_true_iff _]%andb_true_iff.
  by apply ids_increase_sorted in H as [_ ?].
Qed.

Lemma sorted_ids_NoDup (rows : list db.row) :
  StronglySorted (fun r1 r2 => db.row_id r1 < db.row_id r2) rows ->
  NoDup (db.row_id <$> rows).
Proof.
  induction 1 as [|r rows Hs IH Hall]; cbn; constructor; [|done].
  intros (r' & E & Hin)%list_elem_of_fmap.
  rewrite Forall_forall in Hall. specialize (Hall _ Hin). lia.
Qed.

(** ** The order of the listing *)

#[local] Instance comes_first_total : Total db.comes_first.
Proof.
  intros r1 r2. unfold db.comes_first, db.order_by.
  rewrite (String.compare_antisym (db.row_date r2)).
  destruct (db.row_date r1 ?= db.row_date r2)%string; cbn; auto.
  destruct (Z.leb_spec (db.row_id r2) (db.row_id r1)); [auto|right].
  apply Z.leb_le. lia.
Qed.

#[local] Instance comes_first_trans : Transitive db.comes_first.
Proof.
  intros r1 r2 r3. unfold db.comes_first, db.order_by.
  destruct (db.row_date r1 ?= db.row_date r2)%string eqn:E12; try done;
  destruct (db.row_date r2 ?= db.row_date r3)%string eqn:E23; try done.
  - apply String.compare_eq_iff in E12, E23. rewrite E12, E23, string_compare_refl.
    rewrite !Z.leb_le. lia.
  - apply String.compare_eq_iff in E12. rewrite E12, E23. done.
  - apply String.compare_eq_iff in E23. rewrite <- E23, E12. done.
  - rewrite (string_compare_lt_trans _ _ _ E12 E23). done.
Qed.

Lemma sorted_rows_perm (rows : list db.row) : db.sorted_rows rows ≡ₚ rows.
Proof. apply merge_sort_Permutation. Qed.

Lemma sorted_rows_sorted (rows : list db.row) :
  StronglySorted db.comes_first (db.sorted_rows rows).
Proof. apply StronglySorted_merge_sort; apply _. Qed.

Lemma StronglySorted_filter {A} (R : relation A) (P : A -> Prop)
    `{!forall x, Decision (P x)} (l : list A) :
  StronglySorted R l -> StronglySorted R (filter P l).
Proof.
  induction 1 as [|x l Hs IH Hall]; [constructor|].
  rewrite filter_cons. destruct (decide (P x)); [|done].
  constructor; [done|].
  apply Forall_forall. intros y [_ Hy]%list_elem_of_filter.
  rewrite Forall_forall in Hall. auto.
Qed.

Lemma StronglySorted_distinct_keys {A} (R R' : relation A) (key : A -> Z) (l : list A) :
  (forall x y, x ∈ l -> y ∈ l -> key x <> key y -> R x y -> R' x y) ->
  NoDup (key <$> l) -> StronglySorted R l -> StronglySorted R' l.
Proof.
  intros HR Hnd Hs. induction Hs as [|x l Hs IH Hall]; [constructor|].
  cbn in Hnd. apply NoDup_cons in Hnd as [Hx Hnd].
  constructor.
  - apply IH; [|done]. intros y z Hy Hz. apply HR; by right.
  - apply Forall_forall. intros y Hy. rewrite Forall_forall in Hall.
    apply HR; [left|by right| |by apply Hall].
    intros E. apply Hx. rewrite E. by apply list_elem_of_fmap_2.
Qed.

Lemma comes_first_listed_before r1 r2 :
  row_ok r1 = true -> row_ok r2 = true -> db.row_id r1 <> db.row_id r2 ->
  db.comes_first r1 r2 -> listed_before (the_expense r1) (the_expense r2).
Proof.
  intros (d1 & Hok1 & Ht1 & Hd1)%row_ok_date (d2 & Hok2 & Ht2 & Hd2)%row_ok_date Hne.
  unfold db.comes_first, db.order_by, listed_before, the_expense.
  rewrite Hd1, Hd2, Ht1, Ht2, isoformat_compare by done. cbn.
  destruct (date_compare d1 d2) eqn:E; try done.
  - intros Hle%Z.leb_le. right. split; [by apply date_compare_eq|lia].
  - intros _. left. by apply date_compare_lt.
Qed.

(** ** The [WHERE] clause *)

Lemma format_0wd_inj w n1 n2 : Py.format_0wd w n1 = Py.format_0wd w n2 -> n1 = n2.
Proof.
  intros E. apply (f_equal read_int) in E.
  rewrite !read_int_format_0wd in E. congruence.
Qed.

Lemma condition_year r d y :
  Py.date_ok d = true -> db.row_date r = Py.isoformat d ->
  db.condition_holds r (SQLite.Fmt_Y, Py.str y) = true <->
  y = Py.year d /\ 1000 <= y.
Proof.
  intros Hok Ht. unfold db.condition_holds. cbn [fst snd].
  rewrite Ht, strftime_isoformat by done. rewrite String.eqb_eq.
  pose proof (date_ok_bounds d Hok) as (Hy & _).
  destruct (year_text (Py.year d)) as (_ & _ & _ & Hstr); [lia|].
  split.
  - intros E. assert (y = Py.year d) as ->.
    { apply (f_equal read_int) in E.
      rewrite read_int_format_0wd, read_int_str in E. congruence. }
    split; [done|]. by apply Hstr.
  - intros [-> Hge]. symmetry. by apply Hstr.
Qed.

Lemma condition_month r d m :
  Py.date_ok d = true -> db.row_date r = Py.isoformat d ->
  db.condition_holds r (SQLite.Fmt_m, Py.format_0wd 2 m) = true <->
  m = Py.month d.
Proof.
  intros Hok Ht. unfold db.condition_holds. cbn [fst snd].
  rewrite Ht, strftime_isoformat by done. rewrite String.eqb_eq.
  split; [intros E; symmetry; by eapply format_0wd_inj|by intros ->].
Qed.

Lemma condition_day r d a :
  Py.date_ok d = true -> db.row_date r = Py.isoformat d ->
  db.condition_holds r (SQLite.Fmt_d, Py.format_0wd 2 a) = true <->
  a = Py.day d.
Proof.
  intros Hok Ht. unfold db.condition_holds. cbn [fst snd].
  rewrite Ht, strftime_isoformat by done. rewrite String.eqb_eq.
  split; [intros E; symmetry; by eapply format_0wd_inj|by intros ->].
Qed.

(** The clause accepts a row exactly when every supplied component equals
    that of the row's date, and a supplied year has four digits. *)
Lemma accepts_spec month year day r d :
  Py.date_ok d = true -> db.row_date r = Py.isoformat d ->
  accepts month year day r = true <->
  filter_matches month year day d /\
  match year with Some y => 1000 <= y | None => True end.
Proof.
  intros Hok Ht.
  pose proof (fun y => condition_year r d y Hok Ht) as HY.
  pose proof (fun m => condition_month r d m Hok Ht) as HM.
  pose proof (fun a => condition_day r d a Hok Ht) as HD.
  unfold accepts, db.where_holds, db._build_where_clause, filter_matches,
    component_matches.
  destruct year as [y|], month as [m|], day as [a|];
    cbn [fst snd app zip zip_with forallb]; rewrite ?andb_true_iff, ?HY, ?HM, ?HD;
    clear; intuition.
Qed.

(** ** [list_all] on a database that satisfies the invariant *)

Lemma list_all_ok month year day st :
  db_ok st = true ->
  db.list_all month year day st =
  Return (the_expense <$>
            db.sorted_rows
              (filter (fun r => accepts month year day r = true) (db.expenses st)))
         st.
Proof.
  intros Hok. unfold db.list_all, accepts.
  destruct (db._build_where_clause month year day) as [w p]. cbn [fst snd].
  rewrite mapM_expense_of_row; [done|].
  pose proof (db_ok_rows st Hok) as Hrows. rewrite Forall_forall in Hrows.
  apply Forall_forall. intros r Hr. rewrite sorted_rows_perm in Hr.
  apply list_elem_of_filter in Hr as [_ Hr]. auto.
Qed.

Lemma listed_iff_accepted month year day st r :
  db_ok st = true -> r ∈ db.expenses st ->
  the_expense r ∈
    the_expense <$> db.sorted_rows
      (filter (fun r => accepts month year day r = true) (db.expenses st)) <->
  accepts month year day r = true.
Proof.
  intros Hok Hr. pose proof (db_ok_rows st Hok) as Hrows.
  rewrite Forall_forall in Hrows.
  rewrite list_elem_of_fmap. split.
  - intros (r' & E & Hin). rewrite sorted_rows_perm in Hin.
    apply list_elem_of_filter in Hin as [Hacc Hin].
    apply the_expense_inj in E; auto. by subst.
  - intros Hacc. exists r. split; [done|].
    rewrite sorted_rows_perm. by apply list_elem_of_filter.
Qed.

(** Filter correctness as the code has it: a stored record is listed
    exactly when every supplied component equals that of its date and a
    supplied year is at least 1000. *)
Lemma list_all_filter_spec month year day st r d :
  db_ok st = true -> r ∈ db.expenses st -> db.row_date r = Py.isoformat d ->
  Py.date_ok d = true ->
  exists l, db.list_all month year day st = Return l st /\
    (the_expense r ∈ l <->
     filter_matches month year day d /\
     match year with Some y => 1000 <= y | None => True end).
Proof.
  intros Hok Hr Ht Hd. eexists. split; [by apply list_all_ok|].
  rewrite listed_iff_accepted by done. by apply accepts_spec.
Qed.

(** ** Ordering *)

(** C3. For a database that satisfies the invariant, every record of the
    listing stands before every later one in the order "earlier date, or
    same date and larger id". *)
Theorem list_all_sorted month year day st :
  db_ok st = true ->
  exists l, db.list_all month year day st = Return l st /\
            StronglySorted listed_before l.
Proof.
  intros Hok. eexists. split; [by apply list_all_ok|].
  set (rows := filter _ _).
  assert (Hsub : forall r, r ∈ db.sorted_rows rows -> r ∈ db.expenses st).
  { intros r. rewrite sorted_rows_perm. unfold rows.
    rewrite list_elem_of_filter. tauto. }
  pose proof (db_ok_rows st Hok) as Hrows. rewrite Forall_forall in Hrows.
  apply (StronglySorted_fmap _ (fun r1 r2 =>
           listed_before (the_expense r1) (the_expense r2))); [done|].
  apply (StronglySorted_distinct_keys db.comes_first _ db.row_id).
  - intros r1 r2 H1 H2. apply comes_first_listed_before; auto.
  - rewrite sorted_rows_perm. unfold rows.
    apply sorted_ids_NoDup, StronglySorted_filter, db_ok_ids, Hok.
  - apply sorted_rows_sorted.
Qed.

(** ** Totals *)

Lemma fold_insert_absent {V W} (g : W -> V) (kvs : list (string * W))
    (m : gmap string V) (k : string) :
  k ∉ kvs.*1 ->
  fold_left (fun acc kv => <[fst kv := g (snd kv)]> acc) kvs m !! k = m !! k.
Proof.
  revert m. induction kvs as [|[k' v'] kvs IH]; intros m Hk; cbn; [done|].
  cbn in Hk. apply not_elem_of_cons in Hk as [Hne Hk].
  rewrite IH by done. by rewrite lookup_insert_ne.
Qed.

Lemma fold_insert_present {V W} (g : W -> V) (kvs : list (string * W))
    (m : gmap string V) (k : string) (v : W) :
  NoDup kvs.*1 -> (k, v) ∈ kvs ->
  fold_left (fun acc kv => <[fst kv := g (snd kv)]> acc) kvs m !! k = Some (g v).
Proof.
  revert m. induction kvs as [|[k' v'] kvs IH]; intros m Hnd Hin; cbn.
  - by apply elem_of_nil in Hin.
  - cbn in Hnd. apply NoDup_cons in Hnd as [Hk' Hnd].
    apply elem_of_cons in Hin as [[= <- <-]|Hin]; [|by apply IH].
    rewrite fold_insert_absent by done. by rewrite lookup_insert_eq.
Qed.

Lemma group_by_spender_keys (rows : list db.row) :
  (db.group_by_spender rows).*1 = remove_dups (db.row_spender <$> rows).
Proof.
  unfold db.group_by_spender.
  change (map db.row_spender rows) with (db.row_spender <$> rows).
  generalize (remove_dups (db.row_spender <$> rows)) as ks.
  induction ks as [|k ks IH]; cbn; [done|]. by rewrite <- IH at 2.
Qed.

Lemma get_totals_ok month year day st :
  exists totals, db.get_totals month year day st = Return totals st /\
    forall s,
      let rows := filter (fun r => accepts month year day r = true)
                    (db.expenses st) in
      (s ∈ db.row_spender <$> rows ->
       totals !! s =
       Some (db.or_zero
               (SQLite.SUM (db.row_amount <$>
                              filter (fun r => db.row_spender r = s) rows)))) /\
      (s ∉ db.row_spender <$> rows -> totals !! s = None).
Proof.
  unfold db.get_totals, accepts.
  destruct (db._build_where_clause month year day) as [w p]. cbn [fst snd].
  eexists. split; [done|]. intros s. cbn zeta.
  set (rows := filter _ (db.expenses st)). split; intros Hs.
  - apply fold_insert_present.
    + rewrite group_by_spender_keys. apply NoDup_remove_dups.
    + unfold db.group_by_spender. apply list_elem_of_In, in_map_iff.
      exists s. split; [done|].
      by apply list_elem_of_In, elem_of_remove_dups.
  - rewrite fold_insert_absent; [done|].
    rewrite group_by_spender_keys, elem_of_remove_dups. done.
Qed.

Lemma filter_fmap {A B} (f : A -> B) (P : B -> Prop) `{!forall y, Decision (P y)}
    (l : list A) :
  filter P (f <$> l) = f <$> filter (fun x => P (f x)) l.
Proof.
  induction l as [|x l IH]; [done|]. rewrite fmap_cons, !filter_cons, IH.
  by destruct (decide (P (f x))).
Qed.

#[local] Instance by_id_total : Total by_id.
Proof. intros e1 e2. unfold by_id. lia. Qed.

#[local] Instance by_id_trans : Transitive by_id.
Proof. intros e1 e2 e3. unfold by_id. lia. Qed.



(** ** [add] *)

Lemma real_column_is_nan (x : float) :
  is_nan (SQLite.real_column x) = is_nan x.
Proof.
  unfold SQLite.real_column. destruct (x =? 0)%float eqn:E; [|done].
  revert E. unfold is_nan. rewrite !FloatAxioms.eqb_spec.
  change (Prim2SF 0) with (S754_zero false).
  by destruct (Prim2SF x) as [[]|[]| |[] ? ?].
Qed.

Lemma add_number e st :
  is_nan (amount e) = false ->
  db.add e st =
  let rowid := Z.max (db.sqlite_sequence st) (db.max_rowid (db.expenses st)) + 1 in
  Return PyNone
    (db.mkdb (db.expenses st ++
                [db.mkrow rowid (spender e) (Py.isoformat (date e)) (shop e)
                   (SQLite.real_column (amount e))]) rowid).
Proof.
  intros Hnan. unfold db.add, db.insert_expense, SQLite.real_or_null.
  by rewrite Hnan.
Qed.


Lemma max_rowid_cons r (rows : list db.row) :
  db.max_rowid (r :: rows) = Z.max (db.row_id r) (db.max_rowid rows).
Proof. reflexivity. Qed.

Lemma max_rowid_nonneg (rows : list db.row) : 0 <= db.max_rowid rows.
Proof.
  induction rows as [|r rows IH]; [done|]. rewrite max_rowid_cons. lia.
Qed.

Lemma max_rowid_ge (rows : list db.row) r :
  r ∈ rows -> db.row_id r <= db.max_rowid rows.
Proof.
  induction rows as [|r' rows IH].
  - intros []%elem_of_nil.
  - rewrite max_rowid_cons. intros [->|H]%elem_of_cons; [lia|].
    apply IH in H. lia.
Qed.

Lemma max_rowid_snoc (rows : list db.row) r :
  db.max_rowid (rows ++ [r]) = Z.max (db.max_rowid rows) (Z.max (db.row_id r) 0).
Proof.
  induction rows as [|r' rows IH]; [cbn; lia|].
  rewrite <- app_comm_cons, !max_rowid_cons, IH. lia.
Qed.

Lemma ids_increase_snoc last (rows : list db.row) r :
  ids_increase last rows = true ->
  Z.max last (db.max_rowid rows) < db.row_id r ->
  ids_increase last (rows ++ [r]) = true.
Proof.
  revert last. induction rows as [|r' rows IH]; intros last.
  - cbn. intros _ H. apply andb_true_iff. split; [apply Z.ltb_lt; lia|done].
  - rewrite max_rowid_cons. cbn [ids_increase app].
    intros [Hl Hs]%andb_true_iff H. apply andb_true_iff. split; [done|].
    apply IH; [done|]. lia.
Qed.

Lemma add_keeps_db_ok e st :
  db_ok st = true -> Py.date_ok (date e) = true ->
  db_ok (state_after (db.add e st)) = true.
Proof.
  intros Hok Hd. destruct (is_nan (amount e)) eqn:Hnan.
  - unfold db.add, db.insert_expense, SQLite.real_or_null. by rewrite Hnan.
  - rewrite add_number by done. cbn [state_after].
    pose proof (max_rowid_nonneg (db.expenses st)).
    unfold db_ok in *. cbn [db.expenses db.sqlite_sequence].
    apply andb_true_iff in Hok as [[Hrows Hids]%andb_true_iff Hseq].
    assert (Hnew : row_ok (db.mkrow
                     (Z.max (db.sqlite_sequence st) (db.max_rowid (db.expenses st)) + 1)
                     (spender e) (Py.isoformat (date e)) (shop e)
                     (SQLite.real_column (amount e))) = true).
    { unfold row_ok. cbn [db.row_date db.row_amount].
      by rewrite fromisoformat_isoformat, String.eqb_refl,
           real_column_is_nan, Hnan. }
    rewrite forallb_app, Hrows, max_rowid_snoc. cbn [forallb db.row_id].
    rewrite Hnew, ids_increase_snoc; [|done|cbn; lia].
    apply Z.leb_le in Hseq. cbn. apply Z.leb_le. lia.
Qed.

Lemma list_all_reads_only month year day st :
  state_after (db.list_all month year day st) = st.
Proof.
  unfold db.list_all. destruct (db._build_where_clause month year day).
  by destruct (mapM _ _).
Qed.

Lemma get_totals_reads_only month year day st :
  state_after (db.get_totals month year day st) = st.
Proof.
  unfold db.get_totals. by destruct (db._build_where_clause month year day).
Qed.



Lemma run_keeps_db_ok calls st :
  db_ok st = true -> forallb call_ok calls = true -> db_ok (run calls st) = true.
Proof.
  revert st. induction calls as [|c calls IH]; intros st Hok; cbn; [done|].
  intros [Hc Hcs]%andb_true_iff. apply IH; [|done].
  destruct c as [e|m y d|m y d]; cbn in *.
  - by apply add_keeps_db_ok.
  - by rewrite list_all_reads_only.
  - by rewrite get_totals_reads_only.
Qed.
(** ** The stored amount and the reported total *)

Lemma real_column_stored (x : float) : SQLite.real_column x = stored_amount x.
Proof. reflexivity. Qed.

Lemma stored_amount_eqb (x : float) :
  is_nan x = false -> (stored_amount x =? x)%float = true.
Proof.
  intros Hnan. unfold stored_amount. destruct (x =? 0)%float eqn:E.
  - revert E. rewrite !FloatAxioms.eqb_spec.
    change (Prim2SF 0) with (S754_zero false).
    by destruct (Prim2SF x) as [[]|[]| |[] ? ?].
  - unfold is_nan in Hnan. by apply negb_false_iff in Hnan.
Qed.




End Store.

(* ===================================================================== *)
(** * The claims about the store *)
(* ===================================================================== *)

(** C1, at the failing input. A purchase dated 0999-03-05 is stored and is
    listed without a filter, yet the filter [year=999], whose only component
    equals the year of that date, lists nothing: the query compares
    [str(999) = "999"] with the four-digit ["0999"] of [strftime('%Y')],
    where the month and the day are padded to the width [strftime] writes. *)
Theorem year_filter_misses_early_year :
  db.list_all None None None early_db =
    Return [mkExpense (Some 1) "Shakib" (Py.mkdate 999 3 5) "Mizan" 12.5%float]
           early_db /\
  filter_matches None (Some 999) None (Py.mkdate 999 3 5) /\
  db.list_all None (Some 999) None early_db = Return [] early_db.
Proof. repeat split. Qed.




Lemma list_all_sorted_witness :
  exists l, db.list_all (Some 3) (Some 2024) None march_db = Return l march_db /\
            StronglySorted listed_before l.
Proof.
  apply (list_all_sorted (Some 3) (Some 2024) None march_db).
  vm_compute. reflexivity.
Defined.

(** C6, as stated, fails: the totals of the scenario do not give the
    message "Shakib owes Junit 40.00$.". *)
Lemma march_message_is_not_shakib_owes :
  ~ exists totals,
      db.get_totals (Some 3) (Some 2024) None march_db = Return totals march_db /\
      compute_balance_message totals = Some "Shakib owes Junit 40.00$.".
Proof.
  intros (totals & Htot & Hmsg).
  assert (db.get_totals (Some 3) (Some 2024) None march_db =
          Return {[ "Shakib" := 100%float; "Junit" := 20%float ]} march_db) as E
    by (vm_compute; reflexivity).
  rewrite E in Htot. injection Htot as <-.
  vm_compute in Hmsg. discriminate Hmsg.
Qed.

(** C6, amended. From the empty store, after the two [add] calls, the
    listing for March 2024 holds both records with the earlier date first,
    the totals are 100.0 for Shakib and 20.0 for Junit, and the message is
    "Junit owes Shakib 40.00$.": Shakib paid 40.00 more than his share. *)
Theorem march_scenario :
  exists st1,
    db.add costco db.empty_db = Return PyNone st1 /\
    db.add walmart st1 = Return PyNone march_db /\
    db.list_all (Some 3) (Some 2024) None march_db =
      Return [mkExpense (Some 1) "Shakib" (Py.mkdate 2024 3 5) "Costco" 100%float;
              mkExpense (Some 2) "Junit" (Py.mkdate 2024 3 10) "Walmart" 20%float]
             march_db /\
    db.get_totals (Some 3) (Some 2024) None march_db =
      Return {[ "Shakib" := 100%float; "Junit" := 20%float ]} march_db /\
    compute_balance_message {[ "Shakib" := 100%float; "Junit" := 20%float ]} =
      Some "Junit owes Shakib 40.00$.".
Proof.
  eexists. split; [reflexivity|].
  repeat split; vm_compute; reflexivity.
Qed.

(** C7, as stated, fails: [add] returns [None], never the id (here 1) that
    the row receives; and an expense whose amount is NaN is not persisted,
    the [NOT NULL] column refuses it. *)
Lemma add_returns_none_example :
  db.add costco db.empty_db =
    Return PyNone
      (db.mkdb [db.mkrow 1 "Shakib" "2024-03-05" "Costco" 100%float] 1) /\
  PyNone <> PyInt 1 /\
  db.add (mkExpense None "Junit" (Py.mkdate 2024 3 10) "Walmart" nan)
    db.empty_db = Raise IntegrityError db.empty_db.
Proof. repeat split; done. Qed.

(** C7, amended. Every call to [add] with an expense whose amount is a
    number returns [None] and appends one row that carries the expense's
    spender, date and shop and its amount as the store gives it back (an
    equal number, a zero without its sign), under a new id, greater than
    every id in the table and than every id assigned before; so the ids of
    two successive calls strictly increase. *)
Theorem add_assigns_increasing_ids e1 e2 st :
  is_nan (amount e1) = false -> is_nan (amount e2) = false ->
  exists id1 id2 st1 st2,
    db.add e1 st = Return PyNone st1 /\
    db.add e2 st1 = Return PyNone st2 /\
    db.expenses st1 =
      (db.expenses st ++
        [db.mkrow id1 (spender e1) (Py.isoformat (date e1)) (shop e1)
           (stored_amount (amount e1))])%list /\
    db.expenses st2 =
      (db.expenses st1 ++
        [db.mkrow id2 (spender e2) (Py.isoformat (date e2)) (shop e2)
           (stored_amount (amount e2))])%list /\
    (stored_amount (amount e1) =? amount e1)%float = true /\
    (stored_amount (amount e2) =? amount e2)%float = true /\
    Forall (fun r => db.row_id r < id1) (db.expenses st) /\
    db.sqlite_sequence st < id1 /\
    id1 < id2.
Proof.
  intros H1 H2.
  set (id1 := Z.max (db.sqlite_sequence st) (db.max_rowid (db.expenses st)) + 1).
  set (st1 := db.mkdb
                (db.expenses st ++
                   [db.mkrow id1 (spender e1) (Py.isoformat (date e1)) (shop e1)
                      (stored_amount (amount e1))]) id1).
  set (id2 := Z.max (db.sqlite_sequence st1) (db.max_rowid (db.expenses st1)) + 1).
  exists id1, id2, st1,
    (db.mkdb
       (db.expenses st1 ++
          [db.mkrow id2 (spender e2) (Py.isoformat (date e2)) (shop e2)
             (stored_amount (amount e2))]) id2).
  split; [by rewrite add_number, real_column_stored|].
  split; [by rewrite add_number, real_column_stored|].
  split; [done|]. split; [done|].
  split; [by apply stored_amount_eqb|]. split; [by apply stored_amount_eqb|].
  repeat split.
  - apply Forall_forall. intros r Hr%max_rowid_ge. unfold id1. lia.
  - unfold id1. lia.
  - unfold id2. cbn [st1 db.sqlite_sequence]. lia.
Qed.

Lemma add_assigns_increasing_ids_witness :
  exists id1 id2 st1 st2,
    db.add costco db.empty_db = Return PyNone st1 /\
    db.add minus_zero_purchase st1 = Return PyNone st2 /\
    db.expenses st1 =
      (db.expenses db.empty_db ++
        [db.mkrow id1 (spender costco) (Py.isoformat (date costco)) (shop costco)
           (stored_amount (amount costco))])%list /\
    db.expenses st2 =
      (db.expenses st1 ++
        [db.mkrow id2 (spender minus_zero_purchase)
           (Py.isoformat (date minus_zero_purchase))
           (shop minus_zero_purchase)
           (stored_amount (amount minus_zero_purchase))])%list /\
    (stored_amount (amount costco) =? amount costco)%float = true /\
    (stored_amount (amount minus_zero_purchase) =?
       amount minus_zero_purchase)%float = true /\
    Forall (fun r => db.row_id r < id1) (db.expenses db.empty_db) /\
    db.sqlite_sequence db.empty_db < id1 /\
    id1 < id2.
Proof.
  apply (add_assigns_increasing_ids costco minus_zero_purchase db.empty_db);
    vm_compute; reflexivity.
Defined.




(* ===================================================================== *)
(** * More about the store and the balance rule *)
(* ===================================================================== *)

Section StoreExtras.
Implicit Types (r : db.row) (st : db.database) (e : Expense).

Lemma accepts_no_filter r : accepts None None None r = true.
Proof. reflexivity. Qed.

(** X2. With no filter every stored record is listed, once. *)
Theorem unfiltered_listing_is_complete st :
  db_ok st = true ->
  exists l, db.list_all None None None st = Return l st /\
            l ≡ₚ the_expense <$> db.expenses st.
Proof.
  intros Hok. eexists. split; [by apply list_all_ok|].
  rewrite sorted_rows_perm.
  replace (filter _ (db.expenses st)) with (db.expenses st); [done|].
  induction (db.expenses st) as [|r rows IH]; [done|].
  rewrite filter_cons. destruct (decide _) as [_|[]]; [by rewrite <- IH|].
  apply accepts_no_filter.
Qed.

Lemma unfiltered_listing_is_complete_witness :
  exists l, db.list_all None None None march_db = Return l march_db /\
            l ≡ₚ the_expense <$> db.expenses march_db.
Proof.
  apply (unfiltered_listing_is_complete march_db). vm_compute. reflexivity.
Defined.

(** X1. A stored record is listed exactly when every supplied component of
    the filter equals that of its date and a supplied year is at least
    1000; a missing component accepts every date, so a month alone selects
    that month of every year. *)
Theorem listing_matches_filter month year day st r d :
  db_ok st = true -> r ∈ db.expenses st -> db.row_date r = Py.isoformat d ->
  Py.date_ok d = true ->
  exists l, db.list_all month year day st = Return l st /\
    (the_expense r ∈ l <->
     filter_matches month year day d /\
     match year with Some y => 1000 <= y | None => True end).
Proof. apply list_all_filter_spec. Qed.

Lemma listing_matches_filter_witness :
  exists l, db.list_all (Some 3) None None march_db = Return l march_db /\
    (the_expense (db.mkrow 2 "Junit" "2024-03-10" "Walmart" 20%float) ∈ l <->
     filter_matches (Some 3) None None (Py.mkdate 2024 3 10) /\ True).
Proof.
  apply (listing_matches_filter (Some 3) None None march_db
           (db.mkrow 2 "Junit" "2024-03-10" "Walmart" 20%float)
           (Py.mkdate 2024 3 10)).
  - vm_compute. reflexivity.
  - vm_compute. right. left.
  - vm_compute. reflexivity.
  - vm_compute. reflexivity.
Defined.

Lemma no_accepted_rows_empty month year day st :
  filter (fun r => accepts month year day r = true) (db.expenses st) = [] ->
  db.list_all month year day st = Return [] st /\
  db.get_totals month year day st = Return ∅ st.
Proof.
  intros Hnone. unfold db.list_all, db.get_totals, accepts in *.
  destruct (db._build_where_clause month year day) as [w p]. cbn [fst snd] in *.
  by rewrite Hnone.
Qed.

(** X3. A filter component outside the range of real dates, or a year that is
    not written with four digits, lists nothing and totals nothing. *)
Theorem out_of_range_filter_is_empty month year day st :
  db_ok st = true ->
  (exists m, month = Some m /\ ~ 1 <= m <= 12) \/
  (exists a, day = Some a /\ ~ 1 <= a <= 31) \/
  (exists y, year = Some y /\ ~ 1000 <= y <= 9999) ->
  db.list_all month year day st = Return [] st /\
  db.get_totals month year day st = Return ∅ st.
Proof.
  intros Hok Hout. apply no_accepted_rows_empty.
  pose proof (db_ok_rows st Hok) as Hrows.
  induction Hrows as [|r rows Hr _ IH]; [done|].
  rewrite filter_cons. destruct (decide _) as [Hacc|_]; [|done].
  exfalso. destruct (row_ok_date r Hr) as (d & Hd & Ht & _).
  pose proof (proj1 (accepts_spec month year day r d Hd Ht) Hacc)
    as [(Hy & Hm & Ha) Hy4].
  pose proof (date_ok_bounds d Hd) as (By & Bm & Ba).
  unfold component_matches in *.
  destruct Hout as [(m & -> & Hout)|[(a & -> & Hout)|(y & -> & Hout)]]; lia.
Qed.

Lemma out_of_range_filter_is_empty_witness :
  db.list_all (Some 13) None None march_db = Return [] march_db /\
  db.get_totals (Some 13) None None march_db = Return ∅ march_db.
Proof.
  apply (out_of_range_filter_is_empty (Some 13) None None march_db).
  - vm_compute. reflexivity.
  - left. exists 13. split; [reflexivity|lia].
Defined.

(** X6. Every database that calls build from the empty one satisfies the
    invariant, and [list_all] returns on it: no stored date fails to parse. *)
Theorem built_databases_list calls month year day :
  forallb call_ok calls = true ->
  db_ok (run calls db.empty_db) = true /\
  exists l, db.list_all month year day (run calls db.empty_db) =
            Return l (run calls db.empty_db).
Proof.
  intros Hcalls.
  assert (Hok : db_ok (run calls db.empty_db) = true)
    by (by apply run_keeps_db_ok).
  split; [done|]. eexists. by apply list_all_ok.
Qed.

Lemma built_databases_list_witness :
  db_ok (run [CallAdd costco; CallGetTotals None None None; CallAdd walmart]
           db.empty_db) = true /\
  exists l, db.list_all None (Some 2024) None
              (run [CallAdd costco; CallGetTotals None None None; CallAdd walmart]
                 db.empty_db) =
            Return l
              (run [CallAdd costco; CallGetTotals None None None; CallAdd walmart]
                 db.empty_db).
Proof.
  apply (built_databases_list
           [CallAdd costco; CallGetTotals None None None; CallAdd walmart]
           None (Some 2024) None).
  vm_compute. reflexivity.
Defined.

(** X5. The listed records carry ids, no two of them the same. *)
Theorem listed_ids_are_distinct month year day st :
  db_ok st = true ->
  exists l, db.list_all month year day st = Return l st /\
            NoDup (id <$> l) /\ Forall (fun e => is_Some (id e)) l.
Proof.
  intros Hok. eexists. split; [by apply list_all_ok|]. split.
  - rewrite <- list_fmap_compose.
    change (id ∘ the_expense) with (Some ∘ db.row_id).
    rewrite list_fmap_compose. apply NoDup_fmap_2; [apply _|].
    rewrite sorted_rows_perm.
    apply sorted_ids_NoDup, StronglySorted_filter, db_ok_ids, Hok.
  - apply Forall_fmap, Forall_forall. intros r _. by eexists.
Qed.

Lemma listed_ids_are_distinct_witness :
  exists l, db.list_all None None None march_db = Return l march_db /\
            NoDup (id <$> l) /\ Forall (fun e => is_Some (id e)) l.
Proof.
  apply (listed_ids_are_distinct None None None march_db).
  vm_compute. reflexivity.
Defined.

Lemma accepts_conjunction month year day r :
  accepts month year day r =
  accepts month None None r && accepts None year None r &&
  accepts None None day r.
Proof.
  unfold accepts, db.where_holds, db._build_where_clause.
  destruct month, year, day; cbn [fst snd app zip zip_with forallb];
    rewrite ?andb_true_r; try done.
  - destruct (db.condition_holds r (SQLite.Fmt_Y, _)),
             (db.condition_holds r (SQLite.Fmt_m, _)); done.
  - destruct (db.condition_holds r (SQLite.Fmt_Y, _)),
             (db.condition_holds r (SQLite.Fmt_m, _)); done.
Qed.

(** X4. The components of a filter act together as a conjunction: a record is
    listed under a filter exactly when it is listed under each of its
    components taken alone. *)
Theorem filter_components_conjoin month year day st :
  db_ok st = true ->
  exists l lm ly ld,
    db.list_all month year day st = Return l st /\
    db.list_all month None None st = Return lm st /\
    db.list_all None year None st = Return ly st /\
    db.list_all None None day st = Return ld st /\
    forall e, e ∈ l <-> e ∈ lm /\ e ∈ ly /\ e ∈ ld.
Proof.
  intros Hok. eexists _, _, _, _.
  repeat (split; [by apply list_all_ok|]).
  intros e. rewrite !list_elem_of_fmap. split.
  - intros (r & -> & Hr). rewrite sorted_rows_perm in Hr.
    apply list_elem_of_filter in Hr as [Hacc Hr].
    rewrite accepts_conjunction in Hacc.
    apply andb_true_iff in Hacc as [[Hm Hy]%andb_true_iff Hd].
    repeat split; exists r; (split; [done|]); rewrite sorted_rows_perm;
      by apply list_elem_of_filter.
  - intros ((r & -> & Hm) & (ry & Ey & Hy) & (rd & Ed & Hd)).
    rewrite sorted_rows_perm in Hm, Hy, Hd.
    apply list_elem_of_filter in Hm as [Hm Hr], Hy as [Hy Hry], Hd as [Hd Hrd].
    pose proof (db_ok_rows st Hok) as Hrows. rewrite Forall_forall in Hrows.
    assert (ry = r) as -> by (symmetry; apply the_expense_inj; auto).
    assert (rd = r) as -> by (symmetry; apply the_expense_inj; auto).
    exists r. split; [done|]. rewrite sorted_rows_perm.
    apply list_elem_of_filter. split; [|done].
    rewrite accepts_conjunction, Hm, Hy, Hd. done.
Qed.

Lemma filter_components_conjoin_witness :
  exists l lm ly ld,
    db.list_all (Some 3) (Some 2024) (Some 5) march_db = Return l march_db /\
    db.list_all (Some 3) None None march_db = Return lm march_db /\
    db.list_all None (Some 2024) None march_db = Return ly march_db /\
    db.list_all None None (Some 5) march_db = Return ld march_db /\
    forall e, e ∈ l <-> e ∈ lm /\ e ∈ ly /\ e ∈ ld.
Proof.
  apply (filter_components_conjoin (Some 3) (Some 2024) (Some 5) march_db).
  vm_compute. reflexivity.
Defined.

Lemma float_zero_add_spec x :
  Prim2SF (0 + x) =
  match Prim2SF x with
  | S754_zero _ => S754_zero false
  | y => y
  end.
Proof.
  rewrite add_spec. change (Prim2SF 0) with (S754_zero false).
  by destruct (Prim2SF x) as [[]|[]| |[] ? ?].
Qed.

(** [0.0 + x], read through [total or 0.0], is equal to [x]. *)
Lemma float_zero_add x :
  is_nan x = false ->
  is_nan (0 + x) = false /\ (db.or_zero (Some (0 + x)%float) =? x)%float = true.
Proof.
  intros Hnan. pose proof (float_zero_add_spec x) as Hadd.
  destruct (Prim2SF x) as [s| | |] eqn:E.
  - assert ((0 + x)%float = 0%float) as -> by (by apply Prim2SF_inj).
    split; [done|]. cbn. rewrite FloatAxioms.eqb_spec, E. by destruct s.
  - assert ((0 + x)%float = x) as -> by (apply Prim2SF_inj; congruence).
    split; [done|]. unfold db.or_zero.
    assert ((x =? 0)%float = false) as ->
      by (rewrite FloatAxioms.eqb_spec, E; by destruct s).
    by apply negb_false_iff in Hnan.
  - unfold is_nan in Hnan. rewrite FloatAxioms.eqb_spec, E in Hnan. done.
  - assert ((0 + x)%float = x) as -> by (apply Prim2SF_inj; congruence).
    split; [done|]. unfold db.or_zero.
    assert ((x =? 0)%float = false) as ->
      by (rewrite FloatAxioms.eqb_spec, E; by destruct s).
    by apply negb_false_iff in Hnan.
Qed.

(** X7. A spender with exactly one listed record has that record's amount as
    total. *)
Theorem single_record_total month year day st s :
  db_ok st = true ->
  exists l totals,
    db.list_all month year day st = Return l st /\
    db.get_totals month year day st = Return totals st /\
    forall e, filter (fun e' => spender e' = s) l = [e] ->
      exists total, totals !! s = Some total /\
                    (total =? amount e)%float = true.
Proof.
  intros Hok.
  destruct (get_totals_ok month year day st) as (totals & Htot & Hlook).
  eexists _, totals. split; [by apply list_all_ok|]. split; [done|].
  intros e He. specialize (Hlook s). cbn zeta in Hlook.
  set (rows := filter _ (db.expenses st)) in *.
  rewrite filter_fmap in He.
  assert (Hperm : filter (fun r => db.row_spender r = s) (db.sorted_rows rows)
                  ≡ₚ filter (fun r => db.row_spender r = s) rows)
    by (by rewrite sorted_rows_perm).
  destruct (filter _ (db.sorted_rows rows)) as [|r [|]] eqn:Hs; try done.
  injection He as <-.
  apply Permutation_singleton_l in Hperm.
  assert (Hr : r ∈ filter (fun r' => db.row_spender r' = s) rows)
    by (rewrite <- Hperm; left).
  apply list_elem_of_filter in Hr as [Hsp Hr].
  destruct Hlook as [Hin _]. rewrite Hin, <- Hperm.
  2:{ apply list_elem_of_fmap. by exists r. }
  cbn [fmap list_fmap SQLite.SUM SQLite.sum_double fold_left].
  assert (Hnan : is_nan (db.row_amount r) = false).
  { apply row_ok_amount. pose proof (db_ok_rows st Hok) as Hrows.
    rewrite Forall_forall in Hrows. apply Hrows.
    unfold rows in Hr. by apply list_elem_of_filter in Hr as [_ Hr]. }
  destruct (float_zero_add _ Hnan) as [Hn0 Heq].
  unfold SQLite.real_or_null. rewrite Hn0. eauto.
Qed.

Lemma single_record_total_witness :
  exists l totals,
    db.list_all (Some 3) None None march_db = Return l march_db /\
    db.get_totals (Some 3) None None march_db = Return totals march_db /\
    forall e, filter (fun e' => spender e' = "Junit") l = [e] ->
      exists total, totals !! "Junit" = Some total /\
                    (total =? amount e)%float = true.
Proof.
  apply (single_record_total (Some 3) None None march_db "Junit").
  vm_compute. reflexivity.
Defined.

(** X8. When no listed record is Shakib's or Junit's, and in particular when
    nothing is listed, the balance message for the totals is the "no
    expenses" one: what other spenders paid is not counted. *)
Theorem no_party_record_no_expenses month year day st :
  db_ok st = true ->
  exists l totals,
    db.list_all month year day st = Return l st /\
    db.get_totals month year day st = Return totals st /\
    ("Shakib" ∉ spender <$> l -> "Junit" ∉ spender <$> l ->
     compute_balance_message totals =
       Some "No expenses recorded for this period.").
Proof.
  intros Hok.
  destruct (get_totals_ok month year day st) as (totals & Htot & Hlook).
  eexists _, totals. split; [by apply list_all_ok|]. split; [done|].
  cbn zeta in Hlook. set (rows := filter _ (db.expenses st)) in *.
  rewrite <- !list_fmap_compose, sorted_rows_perm.
  change (spender ∘ the_expense) with db.row_spender.
  intros Hs Hj.
  destruct (Hlook "Shakib") as [_ HS], (Hlook "Junit") as [_ HJ].
  unfold compute_balance_message, Py.dict_get. by rewrite HS, HJ.
Qed.

Lemma no_party_record_no_expenses_witness :
  exists l totals,
    db.list_all (Some 4) None None march_db = Return l march_db /\
    db.get_totals (Some 4) None None march_db = Return totals march_db /\
    ("Shakib" ∉ spender <$> l -> "Junit" ∉ spender <$> l ->
     compute_balance_message totals =
       Some "No expenses recorded for this period.").
Proof.
  apply (no_party_record_no_expenses (Some 4) None None march_db).
  vm_compute. reflexivity.
Defined.
End StoreExtras.

(** X9. Whether the "no expenses" message is given does not depend on which of
    the two parties holds which total. *)
Theorem no_expenses_verdict_symmetric (a b : float) :
  compute_balance_message (two_party a b) =
    Some "No expenses recorded for this period." <->
  compute_balance_message (two_party b a) =
    Some "No expenses recorded for this period.".
Proof.
  assert (Hone : forall x y,
    compute_balance_message (two_party x y) =
      Some "No expenses recorded for this period." <-> (x + y =? 0)%float = true).
  { intros x y. rewrite compute_balance_message_two_party.
    destruct (x + y =? 0)%float; [done|].
    repeat case_match; split; intros [=]. }
  rewrite !Hone, (float_add_comm b a). done.
Qed.

Section BalanceExtras.

Lemma round_half_even_nonneg n e : 0 <= n -> 0 <= Py.round_half_even n e.
Proof.
  intros Hn. unfold Py.round_half_even.
  destruct (0 <=? e) eqn:He.
  - apply Z.leb_le in He. apply Z.mul_nonneg_nonneg; [done|].
    apply Z.pow_nonneg. lia.
  - assert (0 <= n / 2 ^ (- e)).
    { apply Z.div_pos; [done|]. apply Z.pow_pos_nonneg; lia. }
    repeat case_match; lia.
Qed.

Lemma str_nonneg_head q :
  0 <= q -> exists c s, Py.str q = String c s /\ Ascii.eqb c "-" = false.
Proof.
  intros Hq. unfold Py.str.
  destruct q as [|p|p]; [| |lia]; cbn [Z.to_int NilZero.string_of_int].
  - by eexists _, _.
  - apply (padded_head 0).
Qed.


Lemma format_2f_unsigned x :
  match Prim2SF x with
  | S754_nan | S754_infinity false | S754_finite false _ _ => True
  | _ => False
  end ->
  unsigned_text (Py.format_2f x).
Proof.
  unfold Py.format_2f.
  destruct (Prim2SF x) as [[]|[]| |[] m e]; try done. intros _.
  rewrite append_empty.
  destruct (str_nonneg_head (Py.round_half_even (100 * Z.pos m) e / 100))
    as (c & s & -> & Hc).
  { apply Z.div_pos; [|done]. apply round_half_even_nonneg. lia. }
  by rewrite append_String.
Qed.

(** X10. The amount in an "owes" message never carries a minus sign: whoever
    the debtor is, the debt is printed as a positive amount (or as [inf] or
    [nan]). *)
Theorem owed_amount_is_unsigned (totals : gmap string float) :
  compute_balance_message totals =
    Some "No expenses recorded for this period." \/
  compute_balance_message totals =
    Some "Both Shakib and Junit have spent equally. No one owes anything." \/
  exists owed,
    unsigned_text owed /\
    (compute_balance_message totals =
       Some ("Junit owes Shakib " ++ owed ++ "$.") \/
     compute_balance_message totals =
       Some ("Shakib owes Junit " ++ owed ++ "$.")).
Proof.
  unfold compute_balance_message, Py.truediv.
  change (2 =? 0)%float with false. cbn [mbind option_bind].
  set (a := Py.dict_get totals "Shakib" 0%float).
  set (b := Py.dict_get totals "Junit" 0%float).
  destruct (a + b =? 0)%float; [by left|].
  set (diff := (a - (a + b) / 2)%float).
  destruct (abs diff <? 1e-6)%float eqn:Hsmall; [by right; left|].
  right. right.
  destruct (0 <? diff)%float eqn:Hpos.
  - exists (Py.format_2f diff). split; [|by left].
    apply format_2f_unsigned. revert Hpos. rewrite FloatAxioms.ltb_spec.
    change (Prim2SF 0) with (S754_zero false).
    by destruct (Prim2SF diff) as [[]|[]| |[] ? ?].
  - exists (Py.format_2f (- diff)). split; [|by right].
    apply format_2f_unsigned. revert Hpos Hsmall.
    rewrite !FloatAxioms.ltb_spec, FloatAxioms.abs_spec, opp_spec.
    change (Prim2SF 0) with (S754_zero false).
    by destruct (Prim2SF diff) as [[]|[]| |[] ? ?].
Qed.
End BalanceExtras.

(* ===================================================================== *)
(** * The balance rule with the parties exchanged *)
(* ===================================================================== *)

Section Mirror.
Implicit Types (a b x y : float) (c : Z).











(** The rounding agrees on everyday amounts; on 100.05 and 50.00 the two
    overpayments are 2502 and 2503 cents. *)
Example rounding_agrees_examples :
  rounding_agrees 0.1 0.2 = true /\
  rounding_agrees 12.34 56.78 = true /\
  rounding_agrees 19.99 5.49 = true /\
  rounding_agrees 100 20 = true /\
  rounding_agrees 100.05 50 = false /\
  owed_cents (balance_diff 100.05 50) = Cents 2502 /\
  owed_cents (balance_diff 50 100.05) = Cents 2503.
Proof. repeat split; vm_compute; reflexivity. Qed.
End Mirror.

(* ===================================================================== *)
(** * The views of app.py *)
(* ===================================================================== *)

Section ViewFacts.
Implicit Types (s : string) (st : db.database) (req : app.request).

Lemma digit_of_ascii_decimal c k :
  Py.digit_of_ascii c = Some k ->
  Builtins.isdecimal_char c = true /\ 0 <= k <= 9.
Proof.
  unfold Py.digit_of_ascii, Builtins.isdecimal_char, Builtins.code.
  destruct (_ && _) eqn:E; [|done]. intros [= <-]. split; [done|].
  apply andb_true_iff in E as [?%Z.leb_le ?%Z.leb_le]. lia.
Qed.

Lemma digits_from_decimal acc s n :
  Py.digits_from acc s = Some n -> 0 <= acc ->
  Builtins.all_chars Builtins.isdecimal_char s = true /\ 0 <= n.
Proof.
  revert acc. induction s as [|c s IH]; intros acc; cbn.
  - intros [= <-]. done.
  - destruct (Py.digit_of_ascii c) as [k|] eqn:E; [|done].
    apply digit_of_ascii_decimal in E as [-> Hk]. intros H Hacc.
    apply IH in H; [done|lia].
Qed.

Lemma int_decimal s n :
  Builtins.int s = Some n ->
  Builtins.all_chars Builtins.isdecimal_char s = true /\ 0 <= n /\
  Z.of_nat (String.length s) <= 4300.
Proof.
  unfold Builtins.int. destruct (Z.ltb_spec 4300 (Z.of_nat (String.length s)));
    [done|].
  destruct s as [|c s]; [done|]. intros Hd.
  apply digits_from_decimal in Hd as [? ?]; done.
Qed.

(** X11. A query parameter that is read as a number is never negative. *)
Theorem query_int_nonnegative (args : gmap string string) key n :
  app.query_int args key = Some (Some n) -> 0 <= n.
Proof.
  unfold app.query_int. destruct (Builtins.isdigit _); [|done].
  destruct (Builtins.int _) eqn:E; [|done]. intros [= <-].
  by apply int_decimal in E as (_ & ? & _).
Qed.

Lemma query_int_nonnegative_witness :
  app.query_int {[ "month" := " 007 " ]} "month" = Some (Some 7) /\ 0 <= 7.
Proof.
  split; [vm_compute; reflexivity|].
  apply (query_int_nonnegative {[ "month" := " 007 " ]} "month" 7).
  vm_compute. reflexivity.
Defined.


Lemma query_int_fails (args : gmap string string) key :
  let s := Builtins.strip (Py.dict_get args key "") in
  Builtins.isdigit s = true ->
  Builtins.all_chars Builtins.isdecimal_char s = false \/
  4300 < Z.of_nat (String.length s) ->
  app.query_int args key = None.
Proof.
  cbn zeta. unfold app.query_int. intros -> Hbad.
  destruct (Builtins.int _) as [n|] eqn:E; [|done].
  apply int_decimal in E as (E1 & _ & E2). destruct Hbad; [congruence|lia].
Qed.

(** X12. A parameter that passes [isdigit()] but is not made of decimal digits
    only (a superscript digit), or that has more than 4300 digits, makes
    [int] raise: both listing views fail with [ValueError] and leave the
    database alone. *)
Theorem views_fail_on_odd_digits CURRENT_YEAR req st key :
  key = "month" \/ key = "year" ->
  Builtins.isdigit (Builtins.strip (Py.dict_get (app.args req) key "")) = true ->
  Builtins.all_chars Builtins.isdecimal_char
    (Builtins.strip (Py.dict_get (app.args req) key "")) = false \/
  4300 < Z.of_nat
    (String.length (Builtins.strip (Py.dict_get (app.args req) key ""))) ->
  app.index CURRENT_YEAR req st = (app.server_error (app.Exn ValueError), st) /\
  app.view_expenses CURRENT_YEAR req st =
    (app.server_error (app.Exn ValueError), st).
Proof.
  intros Hkey Hd Hbad.
  pose proof (query_int_fails (app.args req) key Hd Hbad) as Hq.
  unfold app.index, app.view_expenses.
  destruct Hkey as [-> | ->]; rewrite Hq.
  - done.
  - split; repeat case_match; done.
Qed.

Lemma views_fail_on_odd_digits_witness :
  app.index 2025
    (app.mkrequest app.GET {[ "month" := String (ascii_of_nat 178) "" ]} ∅)
    march_db = (app.server_error (app.Exn ValueError), march_db) /\
  app.view_expenses 2025
    (app.mkrequest app.GET {[ "month" := String (ascii_of_nat 178) "" ]} ∅)
    march_db = (app.server_error (app.Exn ValueError), march_db).
Proof.
  apply (views_fail_on_odd_digits 2025
           (app.mkrequest app.GET {[ "month" := String (ascii_of_nat 178) "" ]} ∅)
           march_db "month").
  - left. reflexivity.
  - vm_compute. reflexivity.
  - left. vm_compute. reflexivity.
Defined.







Lemma index_ok CURRENT_YEAR req st month year :
  db_ok st = true ->
  app.query_int (app.args req) "month" = Some month ->
  app.query_int (app.args req) "year" = Some year ->
  exists l totals balance_message,
    db.list_all month year None st = Return l st /\
    db.get_totals month year None st = Return totals st /\
    compute_balance_message totals = Some balance_message /\
    app.index CURRENT_YEAR req st =
      (app.render_home
         (app.mkhome l totals app.SHOP_CHOICES app.MONTH_CHOICES
            (app.YEAR_CHOICES CURRENT_YEAR) month year balance_message), st).
Proof.
  intros Hok Hm Hy.
  destruct (get_totals_ok month year None st) as (totals & Htot & _).
  destruct (compute_balance_message_returns totals) as [msg Hmsg].
  eexists _, totals, msg. split; [by apply list_all_ok|].
  split; [done|]. split; [done|].
  unfold app.index. rewrite Hm, Hy, list_all_ok, Htot, Hmsg by done. done.
Qed.






(** X16. The listing views never change the database, and [update_expense]
    changes it only when it answers with the redirect. *)
Theorem only_a_stored_expense_changes_the_database
    CURRENT_YEAR py_float date_fromisoformat req st :
  snd (app.index CURRENT_YEAR req st) = st /\
  snd (app.view_expenses CURRENT_YEAR req st) = st /\
  (fst (app.update_expense py_float date_fromisoformat req st) <>
     app.redirect "/" ->
   snd (app.update_expense py_float date_fromisoformat req st) = st).
Proof.
  assert (Hlist : forall m y d, exists o,
            db.list_all m y d st = o /\ state_after o = st)
    by (intros; eexists; split; [done|apply list_all_reads_only]).
  assert (Htot : forall m y d, exists o,
            db.get_totals m y d st = o /\ state_after o = st)
    by (intros; eexists; split; [done|apply get_totals_reads_only]).
  split; [|split].
  - unfold app.index.
    destruct (app.query_int _ "month") as [month|]; [|done].
    destruct (app.query_int _ "year") as [year|]; [|done].
    destruct (Hlist month year None) as (o & -> & Ho).
    destruct o as [l st1|e st1]; cbn in Ho; subst st1; [|done].
    destruct (Htot month year None) as (o & -> & Ho).
    destruct o as [t st2|e st2]; cbn in Ho; subst st2; [|done].
    by destruct (compute_balance_message t).
  - unfold app.view_expenses.
    destruct (app.query_int _ "month") as [month|]; [|done].
    destruct (app.query_int _ "year") as [year|]; [|done].
    destruct (app.query_int _ "day") as [day|]; [|done].
    destruct (bool_decide _); [|done].
    destruct (Hlist month year day) as (o & -> & Ho).
    destruct o as [l st1|e st1]; cbn in Ho; subst st1; [|done].
    destruct (Htot month year day) as (o & -> & Ho).
    destruct o as [t st2|e st2]; cbn in Ho; subst st2; [|done].
    by destruct (compute_balance_message t).
  - unfold app.update_expense.
    destruct (app.method req); [done|].
    destruct (app.form req !! "spender"); [|done].
    destruct (app.form req !! "date"); [|done].
    destruct (app.form req !! "shop"); [|done].
    destruct (app.form req !! "amount"); [|done].
    destruct (if String.eqb _ _ then _ else _); [|done].
    destruct (date_fromisoformat _); [|done].
    unfold db.add. destruct (db.insert_expense _ _ _ _ _); cbn; done.
Qed.

(** X17. An expense sent through the form is stored under a new id,
    greater than every id in the table, and shows on the home page: the
    spender and the shop as typed, the date that was read, and the amount
    as the store gives it back (an equal number, a zero without its sign,
    an empty amount counting as 0.0); the answer is the redirect to
    ["/"]. *)
Theorem update_then_index_shows_expense
    CURRENT_YEAR py_float date_fromisoformat req st
    spender date_str shop amount_str x d :
  db_ok st = true ->
  app.method req = app.POST ->
  app.form req !! "spender" = Some spender ->
  app.form req !! "date" = Some date_str ->
  app.form req !! "shop" = Some shop ->
  app.form req !! "amount" = Some amount_str ->
  (if String.eqb amount_str "" then Some 0%float else py_float amount_str)
    = Some x ->
  is_nan x = false ->
  date_fromisoformat date_str = Some d -> Py.date_ok d = true ->
  exists st' rowid ctx,
    app.update_expense py_float date_fromisoformat req st =
      (app.redirect "/", st') /\
    db_ok st' = true /\
    Forall (fun r => db.row_id r < rowid) (db.expenses st) /\
    app.index CURRENT_YEAR (app.mkrequest app.GET ∅ ∅) st' =
      (app.render_home ctx, st') /\
    mkExpense (Some rowid) spender d shop (stored_amount x)
      ∈ app.home_expenses ctx /\
    (stored_amount x =? x)%float = true.
Proof.
  intros Hok Hpost Hsp Hda Hsh Ham Hx Hnan Hd Hdok.
  set (e := mkExpense None spender d shop x).
  pose proof (add_number e st Hnan) as Hadd. cbn zeta in Hadd.
  rewrite real_column_stored in Hadd.
  pose proof (add_keeps_db_ok e st Hok Hdok) as Hok'.
  rewrite Hadd in Hok'. cbn [state_after] in Hok'.
  set (rowid := Z.max (db.sqlite_sequence st) (db.max_rowid (db.expenses st)) + 1)
    in *.
  set (st' := db.mkdb _ rowid) in *.
  destruct (index_ok CURRENT_YEAR (app.mkrequest app.GET ∅ ∅) st' None None Hok')
    as (l & totals & msg & Hl & _ & _ & Hindex); [done..|].
  eexists st', rowid, _.
  split; [|split; [done|split; [|split; [exact Hindex|split]]]].
  - unfold app.update_expense. rewrite Hpost, Hsp, Hda, Hsh, Ham, Hx, Hd.
    fold e. by rewrite Hadd.
  - apply Forall_forall. intros r Hr%max_rowid_ge. unfold rowid. lia.
  - cbn [app.home_expenses].
    rewrite list_all_ok in Hl by done. injection Hl as <-.
    set (r := db.mkrow rowid spender (Py.isoformat d) shop (stored_amount x)).
    assert (the_expense r =
            mkExpense (Some rowid) spender d shop (stored_amount x)) as <-.
    { unfold the_expense, r. cbn. by rewrite fromisoformat_isoformat. }
    assert (Hr : r ∈ db.expenses st') by (apply elem_of_app; right; left).
    by apply (listed_iff_accepted None None None st' r Hok' Hr).
  - by apply stored_amount_eqb.
Qed.

Lemma update_then_index_shows_expense_witness :
  exists st' rowid ctx,
    app.update_expense (fun _ => Some (-0)%float) Py.fromisoformat
      (app.mkrequest app.POST ∅
         {[ "spender" := "Junit"; "date" := "2024-04-01"; "shop" := "Amazon";
            "amount" := "-0" ]}) march_db =
      (app.redirect "/", st') /\
    db_ok st' = true /\
    Forall (fun r => db.row_id r < rowid) (db.expenses march_db) /\
    app.index 2025 (app.mkrequest app.GET ∅ ∅) st' =
      (app.render_home ctx, st') /\
    mkExpense (Some rowid) "Junit" (Py.mkdate 2024 4 1) "Amazon"
      (stored_amount (-0)%float) ∈ app.home_expenses ctx /\
    (stored_amount (-0) =? -0)%float = true.
Proof.
  apply (update_then_index_shows_expense 2025 (fun _ => Some (-0)%float)
           Py.fromisoformat
           (app.mkrequest app.POST ∅
              {[ "spender" := "Junit"; "date" := "2024-04-01";
                 "shop" := "Amazon"; "amount" := "-0" ]})
           march_db "Junit" "2024-04-01" "Amazon" "-0" (-0)%float
           (Py.mkdate 2024 4 1));
    vm_compute; reflexivity.
Defined.
End ViewFacts.
